(** * Header inspection scripts of botjanweb

    A shallow embedding of [check_headers.py] and [check_sheet_structure.py]:
    two scripts that read header rows of the product sheets through the
    spreadsheet client and print, for every cell, its column letter and its
    value.

    The remote client is a collaborator outside the repository; it is a
    section variable below: a transition function on an abstract service
    state that either raises or answers with the rows of the range. *)

From Stdlib Require Import ZArith String Ascii List Lia Bool.
From stdpp Require Import base option list list_monad strings.
Import ListNotations.

Local Open Scope string_scope.
Local Open Scope Z_scope.

(** ** Python built-ins used by the scripts *)

(** A Python [str] of length one, named by its code point. *)
Definition codepoint := Z.

(** [ord c] of a one-character ASCII literal. *)
Definition ord (c : ascii) : codepoint := Z.of_N (N_of_ascii c).

(** The largest code point, [0x10FFFF]. *)
Definition max_codepoint : Z := 1114111.

(** [chr(i)]: the character of code point [i]; outside [0 .. 0x10FFFF]
    Python raises (ValueError, or OverflowError past the C int range), which
    is [None] here. *)
Definition chr (i : Z) : option codepoint :=
  if (0 <=? i) && (i <=? max_codepoint) then Some i else None.

(** [enumerate(l, start)]: the elements of [l] paired with [start],
    [start + 1], ... *)
Fixpoint enumerate {A : Type} (start : Z) (l : list A) : list (Z * A) :=
  match l with
  | [] => []
  | x :: l' => (start, x) :: enumerate (start + 1) l'
  end.

(** ** Data model *)

(** A row of the [values] array: the cells of one sheet row, left to right.
    The service leaves out trailing empty cells. *)
Definition Row := list string.

(** The answer of [values().get(...).execute()], seen through
    [result.get('values')]: the rows, or nothing when the key is absent. *)
Definition response := option (list Row).

(** One printed column: position, derived letter, raw cell value. *)
Record HeaderEntry := mkEntry {
  col_index : Z;
  col_letter : codepoint;
  cell_value : string
}.

(** [col_letter = chr(65 + i)], check_sheet_structure.py lines 47 and 53,
    check_headers.py line 27. *)
Definition column_letter (i : Z) : option codepoint := chr (65 + i).

(** What one iteration of [for i, val in enumerate(row)] derives. *)
Definition header_entry (iv : Z * string) : option HeaderEntry :=
  match column_letter (fst iv) with
  | Some c => Some (mkEntry (fst iv) c (snd iv))
  | None => None
  end.

(** The listing the loops [for i, h in enumerate(headers): ... chr(65+i) ... h]
    go through, as data: [None] when some [chr] call raises. *)
Definition decodeHeaders (row : Row) : option (list HeaderEntry) :=
  mapM header_entry (enumerate 0 row).

(** ** Letters and lengths *)

(** The single capital letters, the valid one-letter column names. *)
Definition alphabet : string := "ABCDEFGHIJKLMNOPQRSTUVWXYZ".

Definition is_upper (c : codepoint) : bool :=
  (ord "A" <=? c) && (c <=? ord "Z").

Definition is_lower (c : codepoint) : bool :=
  (ord "a" <=? c) && (c <=? ord "z").

(** An ASCII letter of either case. *)
Definition is_letter (c : codepoint) : bool := is_upper c || is_lower c.

(** The largest row length whose last index [chr(65 + i)] still accepts. *)
Definition max_row_length : Z := max_codepoint - 65 + 1.

(** The lone surrogates, U+D800 to U+DFFF: code points [chr] returns as a
    [str], but which a UTF-8 console cannot encode. *)
Definition is_surrogate (c : codepoint) : bool :=
  (55296 <=? c) && (c <=? 57343).

(** The largest row length whose letters can all be printed: the letter of
    index 55,231 is [chr(0xD800)], the first surrogate. *)
Definition max_printable_length : Z := 55296 - 65.

(** ** The remote client *)

(** [service.spreadsheets().values().get(spreadsheetId=..., range=r).execute()]:
    one synchronous read.  The client either raises (authentication,
    unknown sheet, transport) or returns the rows of the range; the service
    may answer differently from one call to the next, hence the state. *)
Record Service := mkService {
  svc_state : Type;
  svc_cause : Type;
  execute : string -> svc_state -> (svc_cause + response) * svc_state
}.

Section Scripts.

Variable svc : Service.

(** What an [except Exception as e] clause of the scripts can receive. *)
Inductive exn :=
| ChrArgError (arg : Z)                 (* raised by [chr(arg)] *)
| UnicodeEncodeError (c : codepoint)    (* raised by [print], [c] not encodable *)
| RemoteError (cause : svc_cause svc).  (* raised by [execute()] *)

(** The lines the scripts print, one constructor per format string. *)
Inductive line :=
| Rule (c : string) (n : nat)
    (* print(c * n) *)
| Text (s : string)
    (* print(s), a literal *)
| Blank
    (* print() *)
| SheetHeading (icon : option codepoint) (sheet suffix : string)
    (* print(f"{icon} Sheet: {sheet}{suffix}"), without icon in check_headers *)
| Entry (letter : codepoint) (val : string)
    (* print(f"  {col_letter} = {val}") *)
| ErrorReading (sheet : string) (e : exn)
    (* print(f"<cross mark> Error reading {sheet_name}: {e}") *)
| HeaderDump (row : Row)
    (* print(f"Row 1 (Header): {rows[0]}") *)
| DataDump (idx : Z) (row : Row)
    (* print(f"Row {idx} (Data):   {row}") *)
| Done.
    (* print("<check mark> Done!") *)

(** What a run does to the outside, in order. *)
Inductive event :=
| Fetch (range : string)
| Print (l : line).

(** The result of running a piece of script from a service state: how it
    ended, the service state it left, and the events it caused. *)
Record run (A : Type) := mkRun {
  outcome : exn + A;
  final : svc_state svc;
  emitted : list event
}.
Arguments mkRun {A}.
Arguments outcome {A}.
Arguments final {A}.
Arguments emitted {A}.

Definition script (A : Type) : Type := svc_state svc -> run A.

Definition script_ret {A} (a : A) : script A :=
  fun st => mkRun (inr a) st [].

Definition script_bind {A B} (f : A -> script B) (m : script A) : script B :=
  fun st =>
    let r := m st in
    match outcome r with
    | inl e => mkRun (inl e) (final r) (emitted r)
    | inr a =>
        let r' := f a (final r) in
        mkRun (outcome r') (final r') (emitted r ++ emitted r')
    end.

#[export] Instance script_mret : MRet script := @script_ret.
#[export] Instance script_mbind : MBind script := @script_bind.

Definition raise {A} (e : exn) : script A :=
  fun st => mkRun (inl e) st [].

(** [try: body  except Exception as e: handler e] *)
Definition try_except {A} (body : script A) (handler : exn -> script A)
  : script A :=
  fun st =>
    let r := body st in
    match outcome r with
    | inl e =>
        let r' := handler e (final r) in
        mkRun (outcome r') (final r') (emitted r ++ emitted r')
    | inr _ => r
    end.

(** The character of a line that a UTF-8 console cannot encode, if there is
    one.  Sheet names, cell values and messages are texts ([string]) and
    encode; the one [str] the scripts build from a code point is the column
    letter, which is a lone surrogate from index 55,231 on. *)
Definition unencodable (l : line) : option codepoint :=
  match l with
  | Entry c _ => if is_surrogate c then Some c else None
  | _ => None
  end.

(** [print(...)] on a UTF-8 console: the line is written whole, or, when it
    cannot be encoded, nothing is written and UnicodeEncodeError is
    raised. *)
Definition print (l : line) : script unit :=
  fun st =>
    match unencodable l with
    | None => mkRun (inr tt) st [Print l]
    | Some c => mkRun (inl (UnicodeEncodeError c)) st []
    end.

(** The remote read of one range. *)
Definition get_values (range : string) : script response :=
  fun st =>
    let '(answer, st') := execute svc range st in
    match answer with
    | inl cause => mkRun (inl (RemoteError cause)) st' [Fetch range]
    | inr result => mkRun (inr result) st' [Fetch range]
    end.

(** [for x in l: body x] *)
Fixpoint for_each {A} (l : list A) (body : A -> script unit) : script unit :=
  match l with
  | [] => mret tt
  | x :: l' => body x;; for_each l' body
  end.

(** [col_letter = chr(65 + i)] as a statement. *)
Definition chr_or_raise (i : Z) : script codepoint :=
  match chr i with
  | Some c => mret c
  | None => raise (ChrArgError i)
  end.

(** The loop shared by both scripts:
<<
    for i, val in enumerate(row):
        col_letter = chr(65 + i)
        print(f"  {col_letter} = {val}")
>> *)
Definition print_entries (row : Row) : script unit :=
  for_each (enumerate 0 row)
    (fun iv => c ← chr_or_raise (65 + fst iv); print (Entry c (snd iv))).

(** *** check_headers.py *)

Definition product_sheets : list string :=
  ["Gemini"; "ChatGPT"; "YouTube"; "Perplexity"].

(** [f'{sheet}!A2:K2'] *)
Definition headers_range (sheet : string) : string := sheet ++ "!A2:K2".

(** [result.get('values', [[]])[0] if result.get('values') else []] *)
Definition first_row (result : response) : Row :=
  match result with
  | Some (r :: _) => r
  | Some [] => []
  | None => []
  end.

(** Body of the loop of check_headers.py, lines 18 to 28: no handler. *)
Definition check_headers_sheet (sheet : string) : script unit :=
  result ← get_values (headers_range sheet);
  let headers := first_row result in
  print (SheetHeading None sheet "");;
  print (Rule "-" 80);;
  print_entries headers;;
  print Blank.

Definition check_headers_loop (sheets : list string) : script unit :=
  for_each sheets check_headers_sheet.

Definition check_headers : script unit :=
  print (Rule "=" 80);;
  print (Text "STRUKTUR AKTUAL SEMUA PRODUCT SHEETS");;
  print (Rule "=" 80);;
  print Blank;;
  check_headers_loop product_sheets.

(** *** check_sheet_structure.py *)

Definition sheets_to_check : list string :=
  ["Gemini"; "ChatGPT"; "YouTube"; "Perplexity"].

(** [f"'{sheet_name}'!A1:Z2"] *)
Definition structure_range (sheet_name : string) : string :=
  "'" ++ sheet_name ++ "'!A1:Z2".

(** [rows[k] if len(rows[k]) > 0 else []] *)
Definition row_or_empty (r : Row) : Row :=
  if (0 <? Z.of_nat (length r)) then r else [].

(** The [try] block of the first loop, lines 31 to 55. *)
Definition structure_try (sheet_name : string) : script unit :=
  result ← get_values (structure_range sheet_name);
  let rows := default [] result in
  print (SheetHeading (Some 128203) sheet_name "");;
  print (Rule "-" 80);;
  match rows with
  | r1 :: _ =>                                   (* len(rows) >= 1 *)
      print (Text "ROW 1 (Title/Label?):");;
      print_entries (row_or_empty r1)
  | [] => mret tt
  end;;
  match rows with
  | _ :: r2 :: _ =>                              (* len(rows) >= 2 *)
      print (Text (String "010" "ROW 2 (Header?):"));;
      print_entries (row_or_empty r2)
  | _ => mret tt
  end;;
  print Blank.

(** The [except Exception as e] clause, lines 57 to 59 and 87 to 89. *)
Definition report_error (sheet_name : string) (e : exn) : script unit :=
  print (ErrorReading sheet_name e);;
  print Blank.

Definition structure_sheet (sheet_name : string) : script unit :=
  try_except (structure_try sheet_name) (report_error sheet_name).

Definition structure_loop (sheets : list string) : script unit :=
  for_each sheets structure_sheet.

(** [f"'{sheet_name}'!A1:J4"] *)
Definition sample_range (sheet_name : string) : string :=
  "'" ++ sheet_name ++ "'!A1:J4".

(** The [try] block of the second loop, lines 68 to 85. *)
Definition sample_try (sheet_name : string) : script unit :=
  result ← get_values (sample_range sheet_name);
  let rows := default [] result in
  print (SheetHeading (Some 128202) sheet_name " - Data Sample");;
  print (Rule "-" 80);;
  match rows with
  | r1 :: rest =>
      print (HeaderDump r1);;
      for_each (enumerate 2 (take 3 rest))       (* rows[1:4], start=2 *)
        (fun ir => print (DataDump (fst ir) (snd ir)))
  | [] => print (Text "  (No data)")
  end;;
  print Blank.

Definition sample_sheet (sheet_name : string) : script unit :=
  try_except (sample_try sheet_name) (report_error sheet_name).

Definition sample_loop (sheets : list string) : script unit :=
  for_each sheets sample_sheet.

Definition check_sheet_structure : script unit :=
  print (Rule "=" 80);;
  print (Text "STRUKTUR HEADER GOOGLE SHEETS - AUDIT");;
  print (Rule "=" 80);;
  print Blank;;
  structure_loop sheets_to_check;;
  print (Rule "=" 80);;
  print (Text "CHECKING DATA SAMPLES (First 3 rows)");;
  print (Rule "=" 80);;
  print Blank;;
  sample_loop sheets_to_check;;
  print Done.

(** *** Reading a run *)

(** The ranges read, in the order of the calls. *)
Definition fetches (evs : list event) : list string :=
  omap (fun ev => match ev with Fetch r => Some r | Print _ => None end) evs.

(** The lines printed, in order. *)
Definition printed (evs : list event) : list line :=
  omap (fun ev => match ev with Print l => Some l | Fetch _ => None end) evs.

(** The sheet a line names, for the lines that name one. *)
Definition line_sheet (l : line) : option string :=
  match l with
  | SheetHeading _ sheet _ => Some sheet
  | ErrorReading sheet _ => Some sheet
  | _ => None
  end.

(** The line printed for a decoded entry. *)
Definition entry_line (e : HeaderEntry) : line :=
  Entry (col_letter e) (cell_value e).

(** A line that names no sheet other than [sheet]. *)
Definition about_sheet (sheet : string) (l : line) : bool :=
  match line_sheet l with
  | Some n => String.eqb n sheet
  | None => true
  end.

(** An event that is a print about [sheet]: in particular not a remote
    call. *)
Definition prints_about (sheet : string) (ev : event) : bool :=
  match ev with
  | Print l => about_sheet sheet l
  | Fetch _ => false
  end.

(** The events of one sheet processed on its own: one read of the sheet's
    range, answered before anything is printed, then only lines about this
    sheet and no further call. *)
Definition sheet_block (range : string -> string) (sheet : string)
    (evs : list event) : bool :=
  match evs with
  | Fetch r :: rest => String.eqb r (range sheet) && forallb (prints_about sheet) rest
  | _ => false
  end.

(** Some printed line names [sheet]: its heading or its diagnostic. *)
Definition names_sheet (sheet : string) (evs : list event) : bool :=
  existsb (fun ev => match ev with
                     | Print l => match line_sheet l with
                                  | Some n => String.eqb n sheet
                                  | None => false
                                  end
                     | Fetch _ => false
                     end) evs.

(** The diagnostic of [sheet] carrying the cause [e] was printed. *)
Definition reports_error (sheet : string) (e : exn) (evs : list event) : Prop :=
  In (Print (ErrorReading sheet e)) evs.

(** [only P m]: whatever the state, every event [m] causes passes [P]. *)
Definition only {A} (P : event -> bool) (m : script A) : Prop :=
  forall st, forallb P (emitted (m st)) = true.

(** [quiet sheet m]: whatever the state, [m] makes no remote call and prints
    only lines about [sheet]. *)
Definition quiet {A} (sheet : string) (m : script A) : Prop :=
  only (prints_about sheet) m.

(** An event other than the print of an entry whose letter is not one of
    'A' to 'Z'. *)
Definition capital_entry (ev : event) : bool :=
  match ev with
  | Print (Entry c _) => is_upper c
  | _ => true
  end.

(** [never_raises m]: whatever the state, [m] ends normally. *)
Definition never_raises (m : script unit) : Prop :=
  forall st, outcome (m st) = inr tt.

(** The letters of the printed entries, in order. *)
Definition printed_letters (evs : list event) : list codepoint :=
  omap (fun ev => match ev with
                  | Print (Entry c _) => Some c
                  | _ => None
                  end) evs.

End Scripts.

Arguments ChrArgError {svc}.
Arguments UnicodeEncodeError {svc}.
Arguments unencodable {svc}.
Arguments RemoteError {svc}.
Arguments Rule {svc}.
Arguments Text {svc}.
Arguments Blank {svc}.
Arguments SheetHeading {svc}.
Arguments Entry {svc}.
Arguments ErrorReading {svc}.
Arguments HeaderDump {svc}.
Arguments DataDump {svc}.
Arguments Done {svc}.
Arguments Fetch {svc}.
Arguments Print {svc}.
Arguments mkRun {svc A}.
Arguments outcome {svc A}.
Arguments final {svc A}.
Arguments emitted {svc A}.
Arguments fetches {svc}.
Arguments printed {svc}.
Arguments line_sheet {svc}.
Arguments entry_line {svc}.
Arguments about_sheet {svc}.
Arguments prints_about {svc}.
Arguments sheet_block {svc}.
Arguments names_sheet {svc}.
Arguments reports_error {svc}.
Arguments printed_letters {svc}.
Arguments only {svc A}.
Arguments quiet {svc A}.
Arguments capital_entry {svc}.
Arguments never_raises {svc}.

(** ** The contract of the ranges *)

(** A response whose rows have at most [cols] cells. *)
Definition within_columns (cols : nat) (result : response) : Prop :=
  Forall (fun r : Row => (length r <= cols)%nat) (default [] result).

(** The service returns no cell outside the columns asked for.  The header
    ranges of the scripts end at column Z (A1:Z2) or before it (A2:K2), so
    their rows have at most 26 cells. *)
Definition answers_within_A_to_Z (svc : Service) : Prop :=
  forall sheet st result st',
    execute svc (structure_range sheet) st = (inr result, st')
    \/ execute svc (headers_range sheet) st = (inr result, st') ->
    within_columns 26 result.

(** ** A concrete workbook, for running the scripts *)

(** A workbook: its tabs, each a grid of rows. *)
Definition workbook := list (string * list Row).

(** The rows a rectangular range shows of a grid: [rows] rows from row
    [top] (0-based), each cut to [cols] columns; no [values] key when there
    is no row. *)
Definition window (grid : list Row) (top rows cols : nat) : response :=
  match take cols <$> take rows (drop top grid) with
  | [] => None
  | rs => Some rs
  end.

(** The three ranges the scripts build for a tab. *)
Definition answer_for (range : string) (tab : string * list Row)
  : option response :=
  let '(name, grid) := tab in
  if String.eqb range (name ++ "!A2:K2") then Some (window grid 1 1 11)
  else if String.eqb range ("'" ++ name ++ "'!A1:Z2") then Some (window grid 0 2 26)
  else if String.eqb range ("'" ++ name ++ "'!A1:J4") then Some (window grid 0 4 10)
  else None.

Fixpoint lookup_range (range : string) (book : workbook) : option response :=
  match book with
  | [] => None
  | tab :: book' =>
      match answer_for range tab with
      | Some r => Some r
      | None => lookup_range range book'
      end
  end.

(** A client over a fixed workbook; the state counts the calls.  A range of
    an unknown tab raises, as the real service answers 400. *)
Definition book_service (book : workbook) : Service :=
  mkService nat string
    (fun range calls =>
       (match lookup_range range book with
        | Some r => inr r
        | None => inl ("Unable to parse range: " ++ range)
        end, S calls)).

(** A workbook without a ChatGPT tab. *)
Definition book_without_chatgpt : workbook :=
  [ ("Gemini",
     [ ["AKUN GEMINI"];
       ["Name"; "Date"; ""; "Status"];
       ["Ani"; "2024-01-05"; ""; "Active"] ]);
    ("YouTube",
     [ ["AKUN YOUTUBE"];
       ["Email"; "Family"] ]);
    ("Perplexity", []) ].

(** The client over that workbook. *)
Definition demo_service : Service := book_service book_without_chatgpt.




(** The scenario of the specification: the tab in the middle is missing. *)
Definition scenario_sheets : list string := ["Gemini"; "Missing"; "YouTube"].

(** ** Whole runs *)

(** The state of the service after the reads of [ranges], in order,
    whatever they answered. *)
Definition after_reads (svc : Service) (ranges : list string)
    (st : svc_state svc) : svc_state svc :=
  fold_left (fun s r => snd (execute svc r s)) ranges st.

(** [keeps_state m]: [m] leaves the service as it found it. *)
Definition keeps_state {svc : Service} {A} (m : script svc A) : Prop :=
  forall st, final (m st) = st.

(** [prints m evs]: from every state [m] ends normally, leaves the service
    alone and causes exactly the events [evs]. *)
Definition prints {svc : Service} (m : script svc unit)
    (evs : list (event svc)) : Prop :=
  forall st, m st = mkRun (inr tt) st evs.


(** The print of a diagnostic, [Error reading ...]. *)
Definition is_diagnostic {svc : Service} (ev : event svc) : bool :=
  match ev with
  | Print (ErrorReading _ _) => true
  | _ => false
  end.



(** A workbook with the four product tabs. *)
Definition book_complete : workbook :=
  [ ("Gemini",
     [ ["AKUN GEMINI"];
       ["Name"; "Date"; ""; "Status"];
       ["Ani"; "2024-01-05"; ""; "Active"];
       ["Budi"; "2024-02-11"; ""; "Expired"];
       ["Cici"; "2024-03-02"; ""; "Active"];
       ["Dedi"; "2024-03-09"; ""; "Active"] ]);
    ("ChatGPT",
     [ ["AKUN CHATGPT"];
       ["Email"; "Plan"] ]);
    ("YouTube",
     [ ["AKUN YOUTUBE"];
       ["Email"; "Family"] ]);
    ("Perplexity", []) ].

Definition complete_service : Service := book_service book_complete.

(** ** Facts about the built-ins *)

Lemma chr_Some (i : Z) (c : codepoint) :
  chr i = Some c <-> (0 <= i <= max_codepoint) /\ c = i.
Proof.
  unfold chr.
  destruct (Z.leb_spec 0 i), (Z.leb_spec i max_codepoint); simpl;
    split; intros Hc; try discriminate; try lia.
  - inversion Hc. lia.
  - destruct Hc as [_ ->]. reflexivity.
Qed.

Lemma chr_None (i : Z) :
  chr i = None <-> i < 0 \/ max_codepoint < i.
Proof.
  unfold chr.
  destruct (Z.leb_spec 0 i), (Z.leb_spec i max_codepoint); simpl;
    split; intros Hc; try discriminate; try lia; reflexivity.
Qed.

Lemma column_letter_Some (i : Z) (c : codepoint) :
  column_letter i = Some c <-> (-65 <= i <= max_codepoint - 65) /\ c = 65 + i.
Proof. unfold column_letter. rewrite chr_Some. lia. Qed.

Lemma is_upper_spec (c : codepoint) : is_upper c = true <-> 65 <= c <= 90.
Proof.
  unfold is_upper. change (ord "A") with 65. change (ord "Z") with 90.
  rewrite andb_true_iff, !Z.leb_le. reflexivity.
Qed.

Lemma is_upper_false (c : codepoint) : is_upper c = false <-> c < 65 \/ 90 < c.
Proof.
  rewrite <- not_true_iff_false, is_upper_spec. lia.
Qed.

Lemma enumerate_length {A} (l : list A) (start : Z) :
  length (enumerate start l) = length l.
Proof.
  revert start. induction l as [|x l IH]; intros start; simpl; [reflexivity|].
  now rewrite IH.
Qed.

Lemma enumerate_lookup {A} (l : list A) (start : Z) (n : nat) :
  enumerate start l !! n = (fun x => (start + Z.of_nat n, x)) <$> (l !! n).
Proof.
  revert start n. induction l as [|x l IH]; intros start [|n]; simpl; try reflexivity.
  - now rewrite Z.add_0_r.
  - rewrite IH. destruct (l !! n); simpl; [|reflexivity].
    do 2 f_equal. lia.
Qed.

(** ** Facts about the decoded listing *)

(** Every entry of a decoded listing is determined by its position. *)
Lemma decodeHeaders_lookup (row : Row) (es : list HeaderEntry) (n : nat) (e : HeaderEntry) :
  decodeHeaders row = Some es ->
  es !! n = Some e ->
  exists v, row !! n = Some v /\ e = mkEntry (Z.of_nat n) (65 + Z.of_nat n) v
            /\ Z.of_nat n <= max_codepoint - 65.
Proof.
  unfold decodeHeaders. intros Hdec Hn.
  apply mapM_Some_1 in Hdec.
  destruct (Forall2_lookup_r _ _ _ _ _ Hdec Hn) as ([i v] & Hiv & Hentry).
  rewrite enumerate_lookup in Hiv.
  apply fmap_Some in Hiv as (v' & Hrow & Hiv).
  inversion Hiv; subst i v'. exists v. split; [exact Hrow|].
  unfold header_entry in Hentry. simpl in Hentry.
  destruct (column_letter (0 + Z.of_nat n)) as [c|] eqn:Hc; [|discriminate].
  apply column_letter_Some in Hc. destruct Hc as [Hrange ->].
  inversion Hentry. split; [f_equal; lia | lia].
Qed.

Lemma decodeHeaders_length (row : Row) (es : list HeaderEntry) :
  decodeHeaders row = Some es -> length es = length row.
Proof.
  unfold decodeHeaders. intros Hdec. apply length_mapM in Hdec.
  rewrite enumerate_length in Hdec. congruence.
Qed.

(** The listing exists exactly for the rows whose last index [chr] accepts. *)
Lemma decodeHeaders_is_Some (row : Row) :
  is_Some (decodeHeaders row) <-> Z.of_nat (length row) <= max_row_length.
Proof.
  unfold decodeHeaders. rewrite mapM_is_Some, Forall_lookup. split.
  - intros Hall.
    destruct (decide (length row = 0%nat)) as [->|Hne]; [unfold max_row_length, max_codepoint; lia|].
    assert (Hlast : (Nat.pred (length row) < length row)%nat) by lia.
    apply lookup_lt_is_Some_2 in Hlast. destruct Hlast as [v Hv].
    specialize (Hall (Nat.pred (length row)) (0 + Z.of_nat (Nat.pred (length row)), v)).
    rewrite enumerate_lookup, Hv in Hall. specialize (Hall eq_refl).
    destruct Hall as [e He]. unfold header_entry in He. simpl in He.
    destruct (column_letter _) as [c|] eqn:Hc; [|discriminate].
    apply column_letter_Some in Hc. unfold max_row_length. lia.
  - intros Hlen n [i v] Hn. rewrite enumerate_lookup in Hn.
    apply fmap_Some in Hn as (v' & Hrow & Hn).
    inversion Hn; subst i v'.
    apply lookup_lt_Some in Hrow.
    unfold compose, header_entry. simpl.
    destruct (column_letter (0 + Z.of_nat n)) as [c|] eqn:Hc; [eexists; reflexivity|].
    unfold column_letter in Hc. apply chr_None in Hc.
    unfold max_row_length in Hlen. lia.
Qed.

Lemma decodeHeaders_nil : decodeHeaders [] = Some [].
Proof. reflexivity. Qed.

(** ** Facts about runs *)

Section Runs.

Variable svc : Service.

Local Abbreviation script := (script svc).
Local Abbreviation run := (run svc).

Lemma bind_run {A B} (m : script A) (f : A -> script B) (st : svc_state svc) :
  (m ≫= f) st =
  match outcome (m st) with
  | inl e => mkRun (inl e) (final (m st)) (emitted (m st))
  | inr a => mkRun (outcome (f a (final (m st)))) (final (f a (final (m st))))
               (emitted (m st) ++ emitted (f a (final (m st))))
  end.
Proof. reflexivity. Qed.

Lemma print_run (l : line svc) (st : svc_state svc) :
  unencodable l = None -> print svc l st = mkRun (inr tt) st [Print l].
Proof. intros Hl. unfold print. now rewrite Hl. Qed.

Lemma print_then {B} (l : line svc) (k : script B) (st : svc_state svc) :
  unencodable l = None ->
  (print svc l;; k) st =
  mkRun (outcome (k st)) (final (k st)) (Print l :: emitted (k st)).
Proof. intros Hl. rewrite bind_run, (print_run l st Hl). reflexivity. Qed.

Lemma is_surrogate_spec (c : codepoint) :
  is_surrogate c = true <-> 55296 <= c <= 57343.
Proof. unfold is_surrogate. rewrite andb_true_iff, !Z.leb_le. reflexivity. Qed.

Lemma is_surrogate_false (c : codepoint) :
  is_surrogate c = false <-> c < 55296 \/ 57343 < c.
Proof. rewrite <- not_true_iff_false, is_surrogate_spec. lia. Qed.

Lemma run_eta {A} (r : run A) : r = mkRun (outcome r) (final r) (emitted r).
Proof. destruct r; reflexivity. Qed.

(** The body of the entry loop, at one index. *)
Lemma entry_step_ok (i : Z) (v : string) (c : codepoint) (st : svc_state svc) :
  column_letter i = Some c ->
  is_surrogate c = false ->
  (c' ← chr_or_raise svc (65 + i); print svc (Entry c' v)) st
  = mkRun (inr tt) st [Print (Entry c v)].
Proof.
  unfold column_letter. intros Hc Hs. rewrite bind_run.
  unfold chr_or_raise. rewrite Hc. cbn [outcome final emitted mret script_mret script_ret].
  rewrite print_run by (simpl; now rewrite Hs). reflexivity.
Qed.

Lemma entry_step_raise (i : Z) (v : string) (st : svc_state svc) :
  column_letter i = None ->
  (c' ← chr_or_raise svc (65 + i); print svc (Entry c' v)) st
  = mkRun (inl (ChrArgError (65 + i))) st [].
Proof.
  unfold column_letter. intros Hc. rewrite bind_run.
  unfold chr_or_raise. rewrite Hc. reflexivity.
Qed.

(** The letter is a [str], but the console refuses it. *)
Lemma entry_step_unprintable (i : Z) (v : string) (c : codepoint)
    (st : svc_state svc) :
  column_letter i = Some c ->
  is_surrogate c = true ->
  (c' ← chr_or_raise svc (65 + i); print svc (Entry c' v)) st
  = mkRun (inl (UnicodeEncodeError c)) st [].
Proof.
  unfold column_letter. intros Hc Hs. rewrite bind_run.
  unfold chr_or_raise. rewrite Hc. cbn [outcome final emitted mret script_mret script_ret].
  unfold print. simpl unencodable. rewrite Hs. reflexivity.
Qed.

(** The entry loop prints the decoded listing, whatever index it starts
    from, as long as the console can print the letters. *)
Lemma entry_loop_decoded (row : Row) (k : Z) (es : list HeaderEntry)
    (st : svc_state svc) :
  Forall2 (fun iv e => header_entry iv = Some e) (enumerate k row) es ->
  Forall (fun e => is_surrogate (col_letter e) = false) es ->
  for_each svc (enumerate k row)
    (fun iv => c ← chr_or_raise svc (65 + fst iv); print svc (Entry c (snd iv))) st
  = mkRun (inr tt) st (Print ∘ entry_line <$> es).
Proof.
  revert k es. induction row as [|v row IH]; intros k es Hes Hprintable.
  - inversion Hes. reflexivity.
  - simpl in Hes. inversion Hes as [|iv e ivs es' Hhead Htail]; subst.
    unfold header_entry in Hhead. simpl in Hhead.
    destruct (column_letter k) as [c|] eqn:Hc; [|discriminate].
    inversion Hhead; subst e.
    apply Forall_cons in Hprintable as [Hs Hprintable]. simpl in Hs.
    simpl enumerate. simpl for_each.
    rewrite bind_run. simpl fst. simpl snd.
    rewrite (entry_step_ok k v c st Hc Hs). cbn [outcome final emitted].
    rewrite (IH (k + 1) es' Htail Hprintable). reflexivity.
Qed.


(** The letters of a listing of at most 55,231 entries can be printed. *)
Lemma decoded_printable (row : Row) (es : list HeaderEntry) :
  decodeHeaders row = Some es ->
  Z.of_nat (length row) <= max_printable_length ->
  Forall (fun e => is_surrogate (col_letter e) = false) es.
Proof.
  intros Hdec Hlen. apply Forall_lookup. intros n e He.
  pose proof (lookup_lt_Some _ _ _ He) as Hn.
  rewrite (decodeHeaders_length row es Hdec) in Hn.
  destruct (decodeHeaders_lookup row es n e Hdec He) as (v & _ & -> & _).
  simpl. apply is_surrogate_false. unfold max_printable_length in Hlen. lia.
Qed.

(** Refinement: on a row of at most 55,231 cells [print_entries] prints
    exactly the listing [decodeHeaders] describes, and touches nothing
    else. *)
Lemma print_entries_decoded (row : Row) (es : list HeaderEntry)
    (st : svc_state svc) :
  decodeHeaders row = Some es ->
  Z.of_nat (length row) <= max_printable_length ->
  print_entries svc row st = mkRun (inr tt) st (Print ∘ entry_line <$> es).
Proof.
  intros Hes Hlen. apply entry_loop_decoded.
  - apply mapM_Some_1, Hes.
  - now apply (decoded_printable row).
Qed.



(** The letter printed at a position of the entry loop is fixed by the
    position, whether or not the loop runs to its end. *)
Lemma entry_loop_letters (row : Row) (k : Z) (st : svc_state svc) (n : nat)
    (c : codepoint) :
  printed_letters
    (emitted
       (for_each svc (enumerate k row)
          (fun iv => c ← chr_or_raise svc (65 + fst iv); print svc (Entry c (snd iv)))
          st)) !! n = Some c ->
  c = 65 + k + Z.of_nat n.
Proof.
  revert k n. induction row as [|v row IH]; intros k n.
  - simpl. intros Hn. discriminate.
  - simpl enumerate. simpl for_each. rewrite bind_run. simpl fst. simpl snd.
    destruct (column_letter k) as [c0|] eqn:Hc.
    + destruct (is_surrogate c0) eqn:Hs.
      * rewrite (entry_step_unprintable k v c0 st Hc Hs). simpl.
        intros Hn. discriminate.
      * rewrite (entry_step_ok k v c0 st Hc Hs). simpl.
        apply column_letter_Some in Hc as [_ ->].
        destruct n as [|n]; simpl.
        -- intros Hn. inversion Hn. lia.
        -- intros Hn. apply IH in Hn. lia.
    + rewrite (entry_step_raise k v st Hc). simpl. intros Hn. discriminate.
Qed.

(** *** Scripts that only print about one sheet *)

Lemma only_ret {A} P (a : A) : only P (mret a : script A).
Proof. intros st. reflexivity. Qed.

Lemma only_raise {A} P e : only P (raise svc e : script A).
Proof. intros st. reflexivity. Qed.

Lemma only_print P l : P (Print l) = true -> only P (print svc l).
Proof.
  intros Hl st. unfold print. destruct (unencodable l); simpl; [reflexivity|].
  now rewrite Hl.
Qed.

Lemma only_bind {A B} P (m : script A) (f : A -> script B) :
  only P m -> (forall a, only P (f a)) -> only P (m ≫= f).
Proof.
  intros Hm Hf st. rewrite bind_run. specialize (Hm st).
  destruct (outcome (m st)) as [e|a]; simpl; [exact Hm|].
  rewrite forallb_app, Hm. apply Hf.
Qed.

Lemma only_try_except {A} P (body : script A) handler :
  only P body -> (forall e, only P (handler e)) ->
  only P (try_except svc body handler).
Proof.
  intros Hb Hh st. unfold try_except. specialize (Hb st).
  destruct (outcome (body st)) as [e|a]; simpl; [|exact Hb].
  rewrite forallb_app, Hb. apply Hh.
Qed.

Lemma only_for_each {A} P (l : list A) (body : A -> script unit) :
  (forall x, only P (body x)) -> only P (for_each svc l body).
Proof.
  intros Hbody. induction l as [|x l IH]; simpl.
  - apply only_ret.
  - apply only_bind; [apply Hbody | intros _; exact IH].
Qed.

Lemma only_chr_or_raise P i : only P (chr_or_raise svc i).
Proof. unfold chr_or_raise. destruct (chr i); [apply only_ret | apply only_raise]. Qed.

Lemma about_sheet_heading sheet icon suffix :
  about_sheet (svc:=svc) sheet (SheetHeading icon sheet suffix) = true.
Proof. unfold about_sheet. simpl. apply String.eqb_refl. Qed.

Lemma about_sheet_error sheet e :
  about_sheet (svc:=svc) sheet (ErrorReading sheet e) = true.
Proof. unfold about_sheet. simpl. apply String.eqb_refl. Qed.

End Runs.

(** Goes through a script statement by statement; what is left are the
    prints whose line needs an argument. *)
Ltac only_step :=
  lazymatch goal with
  | |- only _ (mret _) => apply only_ret
  | |- only _ (raise _ _) => apply only_raise
  | |- only _ (chr_or_raise _ _) => apply only_chr_or_raise
  | |- only _ (print _ _) =>
      apply only_print;
      first [ reflexivity
            | simpl; apply about_sheet_heading
            | simpl; apply about_sheet_error ]
  | |- only _ (for_each _ _ _) => apply only_for_each; intros ?
  | |- only _ (try_except _ _ _) => apply only_try_except; [|intros ?]
  | |- only _ (_ ≫= _) => apply only_bind; [|intros ?]
  end.

Ltac only_steps := unfold quiet; repeat only_step.

Section Sheets.

Variable svc : Service.

Local Abbreviation script := (script svc).
Local Abbreviation run := (run svc).

Lemma quiet_print_entries sheet row : quiet sheet (print_entries svc row).
Proof. unfold print_entries. only_steps. Qed.

Lemma quiet_report_error sheet e : quiet sheet (report_error svc sheet e).
Proof. unfold report_error. only_steps. Qed.

(** *** Scripts that never raise *)

Lemma try_except_never_raises (body : script unit) handler :
  (forall e, never_raises (handler e)) -> never_raises (try_except svc body handler).
Proof.
  intros Hh st. unfold try_except.
  destruct (outcome (body st)) as [e|[]] eqn:Hb; simpl; [apply Hh | exact Hb].
Qed.

Lemma report_error_never_raises sheet e : never_raises (report_error svc sheet e).
Proof. intros st. reflexivity. Qed.

Lemma for_each_never_raises {A} (l : list A) (body : A -> script unit) :
  (forall x, never_raises (body x)) -> never_raises (for_each svc l body).
Proof.
  intros Hbody. induction l as [|x l IH]; intros st; simpl; [reflexivity|].
  rewrite bind_run, (Hbody x st). simpl. apply IH.
Qed.

(** *** Loops, one block of events per element *)

(** A loop runs its body on the elements in order, each from the state the
    previous one left; it stops after the first body that raises.  [k]
    counts the elements whose body was started. *)
Lemma for_each_blocks {A} (body : A -> script unit) (l : list A)
    (st : svc_state svc) :
  exists (k : nat) (blocks : list (list (event svc))),
    emitted (for_each svc l body st) = concat blocks /\
    Forall2 (fun x b => exists st', b = emitted (body x st')) (take k l) blocks /\
    match outcome (for_each svc l body st) with
    | inr _ => k = length l
    | inl _ => (1 <= k <= length l)%nat
    end.
Proof.
  revert st. induction l as [|x l IH]; intros st.
  - exists 0%nat, []. simpl. repeat split; constructor.
  - simpl for_each. rewrite bind_run.
    destruct (outcome (body x st)) as [e|[]] eqn:Hx.
    + exists 1%nat, [emitted (body x st)]. simpl. rewrite app_nil_r.
      split; [reflexivity|]. split; [|lia].
      rewrite take_0. repeat constructor. now exists st.
    + destruct (IH (final (body x st))) as (k & blocks & Hem & Hall & Hout).
      exists (S k), (emitted (body x st) :: blocks). simpl.
      rewrite Hem. split; [reflexivity|]. split.
      * constructor; [now exists st | exact Hall].
      * destruct (outcome (for_each svc l body (final (body x st)))); lia.
Qed.

(** *** One sheet *)

Lemma get_values_run (range : string) (st : svc_state svc) :
  get_values svc range st =
  mkRun (match fst (execute svc range st) with
         | inl cause => inl (RemoteError cause)
         | inr result => inr result
         end)
        (snd (execute svc range st)) [Fetch range].
Proof.
  unfold get_values. destruct (execute svc range st) as [[cause|result] st'];
    reflexivity.
Qed.

(** A read followed by printing about the sheet is a block of that sheet. *)
Lemma fetch_then_block {A} (range : string -> string) (sheet : string)
    (k : response -> script A) (st : svc_state svc) :
  (forall result, quiet sheet (k result)) ->
  sheet_block range sheet (emitted ((get_values svc (range sheet) ≫= k) st)) = true.
Proof.
  intros Hk. rewrite bind_run, get_values_run.
  destruct (fst (execute svc (range sheet) st)) as [cause|result]; simpl.
  - now rewrite String.eqb_refl.
  - rewrite String.eqb_refl. apply Hk.
Qed.

Lemma sheet_block_app range sheet (evs evs' : list (event svc)) :
  sheet_block range sheet evs = true ->
  forallb (prints_about sheet) evs' = true ->
  sheet_block range sheet (evs ++ evs') = true.
Proof.
  destruct evs as [|[r|l] rest]; simpl; try discriminate.
  intros Hb Hq. apply andb_true_iff in Hb as [Hr Hrest].
  now rewrite Hr, forallb_app, Hrest, Hq.
Qed.

Lemma try_except_block range sheet (body : script unit) handler st :
  sheet_block range sheet (emitted (body st)) = true ->
  (forall e, quiet sheet (handler e)) ->
  sheet_block range sheet (emitted (try_except svc body handler st)) = true.
Proof.
  intros Hb Hh. unfold try_except.
  destruct (outcome (body st)) as [e|a]; simpl; [|exact Hb].
  apply sheet_block_app; [exact Hb | apply Hh].
Qed.

Lemma quiet_after_headers sheet result :
  quiet sheet
    (print svc (SheetHeading None sheet "");;
     print svc (Rule "-" 80);;
     print_entries svc (first_row result);;
     print svc Blank).
Proof. unfold print_entries. only_steps. Qed.

Lemma check_headers_sheet_block sheet st :
  sheet_block headers_range sheet (emitted (check_headers_sheet svc sheet st)) = true.
Proof.
  unfold check_headers_sheet. apply fetch_then_block.
  intros result. apply quiet_after_headers.
Qed.

Lemma structure_try_block sheet st :
  sheet_block structure_range sheet (emitted (structure_try svc sheet st)) = true.
Proof.
  unfold structure_try. apply fetch_then_block. intros result.
  destruct (default [] result) as [|r1 [|r2 rows]];
    unfold print_entries; only_steps.
Qed.

Lemma structure_sheet_block sheet st :
  sheet_block structure_range sheet (emitted (structure_sheet svc sheet st)) = true.
Proof.
  unfold structure_sheet. apply try_except_block.
  - apply structure_try_block.
  - intros e. apply quiet_report_error.
Qed.

Lemma sample_try_block sheet st :
  sheet_block sample_range sheet (emitted (sample_try svc sheet st)) = true.
Proof.
  unfold sample_try. apply fetch_then_block. intros result.
  destruct (default [] result) as [|r1 rows]; only_steps.
Qed.

Lemma sample_sheet_block sheet st :
  sheet_block sample_range sheet (emitted (sample_sheet svc sheet st)) = true.
Proof.
  unfold sample_sheet. apply try_except_block.
  - apply sample_try_block.
  - intros e. apply quiet_report_error.
Qed.

Lemma structure_sheet_never_raises sheet : never_raises (structure_sheet svc sheet).
Proof. apply try_except_never_raises, report_error_never_raises. Qed.

Lemma sample_sheet_never_raises sheet : never_raises (sample_sheet svc sheet).
Proof. apply try_except_never_raises, report_error_never_raises. Qed.

(** *** A read that fails *)

(** check_sheet_structure.py: the handler turns the failure into the
    diagnostic of the sheet and the iteration ends normally. *)
Lemma structure_sheet_fetch_fails sheet st cause st' :
  execute svc (structure_range sheet) st = (inl cause, st') ->
  structure_sheet svc sheet st
  = mkRun (inr tt) st'
      [Fetch (structure_range sheet);
       Print (ErrorReading sheet (RemoteError cause)); Print Blank].
Proof.
  intros Hex. unfold structure_sheet, try_except, structure_try.
  rewrite bind_run, get_values_run, Hex. reflexivity.
Qed.

(** check_headers.py: nothing catches the failure. *)
Lemma check_headers_sheet_fetch_fails sheet st cause st' :
  execute svc (headers_range sheet) st = (inl cause, st') ->
  check_headers_sheet svc sheet st
  = mkRun (inl (RemoteError cause)) st' [Fetch (headers_range sheet)].
Proof.
  intros Hex. unfold check_headers_sheet.
  rewrite bind_run, get_values_run, Hex. reflexivity.
Qed.

(** *** Every sheet of check_sheet_structure.py is named in its block *)

Lemma names_sheet_app_l sheet (evs evs' : list (event svc)) :
  names_sheet sheet evs = true -> names_sheet sheet (evs ++ evs') = true.
Proof. unfold names_sheet. rewrite existsb_app. intros ->. reflexivity. Qed.

Lemma names_sheet_app_r sheet (evs evs' : list (event svc)) :
  names_sheet sheet evs' = true -> names_sheet sheet (evs ++ evs') = true.
Proof. unfold names_sheet. rewrite existsb_app. intros ->. apply orb_true_r. Qed.

Lemma report_error_names sheet e st :
  names_sheet sheet (emitted (report_error svc sheet e st)) = true.
Proof. simpl. now rewrite String.eqb_refl. Qed.

(** A [try] block that prints the heading right after a successful read,
    under the handler of the scripts, names its sheet either way. *)
Lemma guarded_block_names (range : string) sheet icon suffix
    (rest : response -> script unit) st :
  names_sheet sheet
    (emitted
       (try_except svc
          (result ← get_values svc range;
           print svc (SheetHeading icon sheet suffix);; rest result)
          (report_error svc sheet) st)) = true.
Proof.
  unfold try_except. rewrite bind_run, get_values_run.
  destruct (fst (execute svc range st)) as [cause|result]; simpl outcome.
  - cbv iota. apply names_sheet_app_r, report_error_names.
  - simpl.
    destruct (outcome (rest result (snd (execute svc range st)))) as [e|a];
      simpl; now rewrite String.eqb_refl.
Qed.

Lemma structure_sheet_names sheet st :
  names_sheet sheet (emitted (structure_sheet svc sheet st)) = true.
Proof. apply guarded_block_names. Qed.

Lemma sample_sheet_names sheet st :
  names_sheet sheet (emitted (sample_sheet svc sheet st)) = true.
Proof. apply guarded_block_names. Qed.


(** *** Loops in pieces *)

Lemma bind_assoc {A B C} (m : script A) (f : A -> script B) (g : B -> script C)
    (st : svc_state svc) :
  ((m ≫= f) ≫= g) st = (m ≫= (fun a => f a ≫= g)) st.
Proof.
  rewrite !bind_run. destruct (outcome (m st)) as [e|a]; simpl; [reflexivity|].
  rewrite bind_run.
  destruct (outcome (f a (final (m st)))) as [e|b]; simpl; [reflexivity|].
  now rewrite app_assoc.
Qed.

Lemma bind_ext {A B} (m : script A) (f g : A -> script B) (st : svc_state svc) :
  (forall a st', f a st' = g a st') -> (m ≫= f) st = (m ≫= g) st.
Proof.
  intros Hfg. rewrite !bind_run.
  destruct (outcome (m st)) as [e|a]; [reflexivity|]. now rewrite Hfg.
Qed.

(** A loop over [l1 ++ l2] is the loop over [l1] followed by the loop over
    [l2] from the state the first one left. *)
Lemma for_each_app {A} (l1 l2 : list A) (body : A -> script unit)
    (st : svc_state svc) :
  for_each svc (l1 ++ l2) body st
  = (for_each svc l1 body;; for_each svc l2 body) st.
Proof.
  revert st. induction l1 as [|x l1 IH]; intros st.
  - simpl. rewrite bind_run. simpl. apply run_eta.
  - simpl app. simpl for_each. rewrite bind_assoc.
    apply bind_ext. intros [] st'. apply IH.
Qed.

(** check_sheet_structure.py, in general: a sheet whose read fails, anywhere
    in the list, gets its diagnostic, and the loop goes on with the sheets
    after it from the state the failed read left. *)
Lemma structure_loop_isolates_failure (before after : list string)
    (sheet : string) (st : svc_state svc) cause st' :
  execute svc (structure_range sheet) (final (structure_loop svc before st))
  = (inl cause, st') ->
  structure_loop svc (before ++ sheet :: after) st
  = mkRun (inr tt) (final (structure_loop svc after st'))
      (emitted (structure_loop svc before st)
       ++ Fetch (structure_range sheet)
          :: Print (ErrorReading sheet (RemoteError cause))
          :: Print Blank
          :: emitted (structure_loop svc after st')).
Proof.
  intros Hex. unfold structure_loop in *. rewrite for_each_app, bind_run.
  rewrite (for_each_never_raises before _ structure_sheet_never_raises st).
  simpl for_each. rewrite bind_run.
  rewrite (structure_sheet_fetch_fails sheet _ cause st' Hex). simpl.
  f_equal.
  apply (for_each_never_raises after _ structure_sheet_never_raises).
Qed.

(** *** Reading the calls off a sequence of blocks *)

Lemma quiet_events_fetch_nothing sheet (evs : list (event svc)) :
  forallb (prints_about sheet) evs = true -> fetches evs = [].
Proof.
  induction evs as [|[r|l] evs IH]; simpl; intros Hq; try discriminate.
  - reflexivity.
  - apply andb_true_iff in Hq as [_ Hq]. exact (IH Hq).
Qed.

Lemma sheet_block_fetches range sheet (evs : list (event svc)) :
  sheet_block range sheet evs = true -> fetches evs = [range sheet].
Proof.
  destruct evs as [|[r|l] rest]; simpl; try discriminate.
  intros Hb. apply andb_true_iff in Hb as [Hr Hrest].
  apply String.eqb_eq in Hr. subst r.
  pose proof (quiet_events_fetch_nothing sheet rest Hrest) as Hnone.
  unfold fetches in *. simpl. now rewrite Hnone.
Qed.

Lemma fetches_app (evs evs' : list (event svc)) :
  fetches (evs ++ evs') = (fetches evs ++ fetches evs')%list.
Proof. unfold fetches. apply omap_app. Qed.

Lemma blocks_fetches range (sheets : list string) (blocks : list (list (event svc))) :
  Forall2 (fun s b => sheet_block range s b = true) sheets blocks ->
  fetches (concat blocks) = range <$> sheets.
Proof.
  induction 1 as [|s b sheets blocks Hb _ IH]; simpl; [reflexivity|].
  now rewrite fetches_app, (sheet_block_fetches range s b Hb), IH.
Qed.

End Sheets.

(** ** The decoded listing *)

(** C5.  The row ["Name", "Date", "", "Status"] decodes to exactly
    (0,'A',"Name"), (1,'B',"Date"), (2,'C',""), (3,'D',"Status"): the empty
    cell in the middle keeps its place and its own entry, and these are the
    four lines the scripts print for it. *)
Theorem decode_name_date_status (svc : Service) (st : svc_state svc) :
  decodeHeaders ["Name"; "Date"; ""; "Status"]
  = Some [mkEntry 0 (ord "A") "Name"; mkEntry 1 (ord "B") "Date";
          mkEntry 2 (ord "C") ""; mkEntry 3 (ord "D") "Status"]
  /\ print_entries svc ["Name"; "Date"; ""; "Status"] st
     = mkRun (inr tt) st
         [Print (Entry (ord "A") "Name"); Print (Entry (ord "B") "Date");
          Print (Entry (ord "C") ""); Print (Entry (ord "D") "Status")].
Proof. split; reflexivity. Qed.

Lemma nth_capital (n : nat) :
  (n < 26)%nat ->
  column_letter (Z.of_nat n) = ord <$> String.get n alphabet.
Proof.
  intros Hn.
  do 26 (destruct n as [|n]; [reflexivity|]). lia.
Qed.

(** C3.  For every column index from 0 to 25 the derived letter is
    chr(65 + index), the index-th capital letter (0 gives 'A', 1 gives 'B',
    ...), it is the letter of the entry at that position of every decoded
    listing, and distinct indices of that range get distinct letters. *)
Theorem column_letter_first_26 (i j : Z) :
  0 <= i <= 25 -> 0 <= j <= 25 ->
  column_letter i = Some (ord "A" + i)
  /\ column_letter i = ord <$> String.get (Z.to_nat i) alphabet
  /\ (column_letter i = column_letter j -> i = j)
  /\ (forall (row : Row) es e,
        decodeHeaders row = Some es -> es !! Z.to_nat i = Some e ->
        col_index e = i /\ Some (col_letter e) = column_letter i).
Proof.
  intros Hi Hj.
  assert (Hci : column_letter i = Some (65 + i))
    by (apply column_letter_Some; unfold max_codepoint; lia).
  assert (Hcj : column_letter j = Some (65 + j))
    by (apply column_letter_Some; unfold max_codepoint; lia).
  split; [exact Hci|]. split; [|split].
  - rewrite <- (Z2Nat.id i) at 1 by lia. apply nth_capital. lia.
  - rewrite Hci, Hcj. intros Heq. inversion Heq. lia.
  - intros row es e Hdec He.
    destruct (decodeHeaders_lookup row es _ e Hdec He) as (v & _ & -> & _).
    simpl. rewrite Z2Nat.id by lia. split; [reflexivity|]. now rewrite Hci.
Qed.

Lemma column_letter_first_26_witness :
  column_letter 2 = Some (ord "A" + 2)
  /\ column_letter 2 = ord <$> String.get (Z.to_nat 2) alphabet
  /\ (column_letter 2 = column_letter 25 -> 2 = 25)
  /\ (forall (row : Row) es e,
        decodeHeaders row = Some es -> es !! Z.to_nat 2 = Some e ->
        col_index e = 2 /\ Some (col_letter e) = column_letter 2).
Proof. apply (column_letter_first_26 2 25); lia. Defined.

(** C10.  In a decoded listing the entry at position n carries index n:
    there is one entry per cell of the row, the indices are 0, 1, 2, ... and
    the values are the cells of the row in their order. *)
Theorem entries_mirror_row (row : Row) (es : list HeaderEntry) :
  decodeHeaders row = Some es ->
  length es = length row
  /\ col_index <$> es = Z.of_nat <$> seq 0 (length row)
  /\ cell_value <$> es = row
  /\ (forall n e, es !! n = Some e ->
        col_index e = Z.of_nat n /\ row !! n = Some (cell_value e)).
Proof.
  intros Hdec. pose proof (decodeHeaders_length row es Hdec) as Hlen.
  assert (Hat : forall n e, es !! n = Some e ->
            col_index e = Z.of_nat n /\ row !! n = Some (cell_value e)).
  { intros n e He.
    destruct (decodeHeaders_lookup row es n e Hdec He) as (v & Hv & -> & _).
    simpl. split; [reflexivity | exact Hv]. }
  split; [exact Hlen|]. split; [|split; [|exact Hat]].
  - apply list_eq. intros n. rewrite !list_lookup_fmap.
    destruct (es !! n) as [e|] eqn:He; simpl.
    + destruct (Hat n e He) as [-> _].
      apply lookup_lt_Some in He.
      rewrite lookup_seq_lt by lia. reflexivity.
    + apply lookup_ge_None in He.
      rewrite lookup_seq_ge by lia. reflexivity.
  - apply list_eq. intros n. rewrite list_lookup_fmap.
    destruct (es !! n) as [e|] eqn:He; simpl.
    + destruct (Hat n e He) as [_ Hcell]. symmetry. exact Hcell.
    + apply lookup_ge_None in He. symmetry. apply lookup_ge_None. lia.
Qed.

Lemma entries_mirror_row_witness :
  length [mkEntry 0 65 "Email"; mkEntry 1 66 "Family"] = length ["Email"; "Family"]
  /\ col_index <$> [mkEntry 0 65 "Email"; mkEntry 1 66 "Family"]
     = Z.of_nat <$> seq 0 (length ["Email"; "Family"])
  /\ cell_value <$> [mkEntry 0 65 "Email"; mkEntry 1 66 "Family"] = ["Email"; "Family"]
  /\ (forall n e, [mkEntry 0 65 "Email"; mkEntry 1 66 "Family"] !! n = Some e ->
        col_index e = Z.of_nat n /\ ["Email"; "Family"] !! n = Some (cell_value e)).
Proof. apply (entries_mirror_row ["Email"; "Family"]). reflexivity. Defined.

(** C6.  The letter of a cell is a function of its position in the row
    alone.  Two rows, of any content, decoded for any sheet, give the same
    letter at the same position, chr(65 + position); and the entry loop,
    run on any two rows from any two states of the service (so for any two
    sheets, whatever was read before), prints the same letter at the same
    position. *)
Theorem letter_fixed_by_position (svc : Service) (row1 row2 : Row)
    (es1 es2 : list HeaderEntry) (n : nat) (e1 e2 : HeaderEntry) :
  decodeHeaders row1 = Some es1 ->
  decodeHeaders row2 = Some es2 ->
  es1 !! n = Some e1 ->
  es2 !! n = Some e2 ->
  col_letter e1 = col_letter e2
  /\ Some (col_letter e1) = column_letter (Z.of_nat n)
  /\ (forall (st1 st2 : svc_state svc) c1 c2,
        printed_letters (emitted (print_entries svc row1 st1)) !! n = Some c1 ->
        printed_letters (emitted (print_entries svc row2 st2)) !! n = Some c2 ->
        c1 = c2 /\ c1 = col_letter e1).
Proof.
  intros Hd1 Hd2 He1 He2.
  destruct (decodeHeaders_lookup row1 es1 n e1 Hd1 He1) as (v1 & _ & -> & Hn).
  destruct (decodeHeaders_lookup row2 es2 n e2 Hd2 He2) as (v2 & _ & -> & _).
  simpl. split; [reflexivity|]. split.
  - symmetry. apply column_letter_Some. lia.
  - intros st1 st2 c1 c2 Hc1 Hc2.
    apply entry_loop_letters in Hc1. apply entry_loop_letters in Hc2. lia.
Qed.

Lemma letter_fixed_by_position_witness :
  col_letter (mkEntry 1 66 "Date") = col_letter (mkEntry 1 66 "Family")
  /\ Some (col_letter (mkEntry 1 66 "Date")) = column_letter (Z.of_nat 1)
  /\ (forall (st1 st2 : svc_state demo_service) c1 c2,
        printed_letters
          (emitted (print_entries demo_service
                      ["Name"; "Date"; ""; "Status"] st1)) !! 1%nat = Some c1 ->
        printed_letters
          (emitted (print_entries demo_service
                      ["Email"; "Family"] st2)) !! 1%nat = Some c2 ->
        c1 = c2 /\ c1 = col_letter (mkEntry 1 66 "Date")).
Proof.
  apply (letter_fixed_by_position demo_service
           ["Name"; "Date"; ""; "Status"] ["Email"; "Family"]
           [mkEntry 0 65 "Name"; mkEntry 1 66 "Date"; mkEntry 2 67 "";
            mkEntry 3 68 "Status"]
           [mkEntry 0 65 "Email"; mkEntry 1 66 "Family"] 1);
    reflexivity.
Defined.


Lemma max_row_length_value : max_row_length = 1114047.
Proof. reflexivity. Qed.

Lemma max_printable_length_value : max_printable_length = 55231.
Proof. reflexivity. Qed.







(** ** The loops over the sheets *)

Section Loops.

Variable svc : Service.

(** A loop whose body handles its own failures runs the body on every
    element: one block per sheet, in the order of the list. *)
Lemma guarded_loop_blocks (body : string -> script svc unit)
    (range : string -> string) (sheets : list string) (st : svc_state svc) :
  (forall s, never_raises (body s)) ->
  (forall s st', sheet_block range s (emitted (body s st')) = true) ->
  (forall s st', names_sheet s (emitted (body s st')) = true) ->
  outcome (for_each svc sheets body st) = inr tt
  /\ exists blocks,
       emitted (for_each svc sheets body st) = concat blocks
       /\ Forall2 (fun s b => sheet_block range s b = true
                              /\ names_sheet s b = true) sheets blocks.
Proof.
  intros Hnever Hblock Hnames.
  pose proof (for_each_never_raises svc sheets body Hnever st) as Hout.
  split; [exact Hout|].
  destruct (for_each_blocks svc body sheets st) as (k & blocks & Hem & Hall & Hk).
  rewrite Hout in Hk. subst k. rewrite take_ge in Hall by lia.
  exists blocks. split; [exact Hem|].
  eapply Forall2_impl; [exact Hall|].
  intros s b [st' ->]. split; [apply Hblock | apply Hnames].
Qed.

Lemma structure_loop_blocks (sheets : list string) (st : svc_state svc) :
  outcome (structure_loop svc sheets st) = inr tt
  /\ exists blocks,
       emitted (structure_loop svc sheets st) = concat blocks
       /\ Forall2 (fun s b => sheet_block structure_range s b = true
                              /\ names_sheet s b = true) sheets blocks.
Proof.
  apply guarded_loop_blocks.
  - apply structure_sheet_never_raises.
  - apply structure_sheet_block.
  - apply structure_sheet_names.
Qed.

Lemma sample_loop_blocks (sheets : list string) (st : svc_state svc) :
  outcome (sample_loop svc sheets st) = inr tt
  /\ exists blocks,
       emitted (sample_loop svc sheets st) = concat blocks
       /\ Forall2 (fun s b => sheet_block sample_range s b = true
                              /\ names_sheet s b = true) sheets blocks.
Proof.
  apply guarded_loop_blocks.
  - apply sample_sheet_never_raises.
  - apply sample_sheet_block.
  - apply sample_sheet_names.
Qed.


Lemma structure_loop_fetches (sheets : list string) (st : svc_state svc) :
  fetches (emitted (structure_loop svc sheets st)) = structure_range <$> sheets.
Proof.
  destruct (structure_loop_blocks sheets st) as (_ & blocks & -> & Hall).
  apply blocks_fetches. eapply Forall2_impl; [exact Hall|].
  intros s b [Hb _]. exact Hb.
Qed.

End Loops.

(** ** A read that fails *)

(** C1, in check_headers.py.  On a workbook without the ChatGPT tab the
    read of the second sheet raises and leaves the loop: the run ends with
    that exception, YouTube and Perplexity are never read nor named in the
    output.  check_sheet_structure.py, on the same workbook, reads all four
    sheets in both of its loops, names each of them and ends normally. *)
Theorem check_headers_stops_at_failed_read :
  outcome (check_headers demo_service 0%nat)
  = inl (RemoteError (svc:=demo_service) "Unable to parse range: ChatGPT!A2:K2")
  /\ fetches (emitted (check_headers demo_service 0%nat))
     = ["Gemini!A2:K2"; "ChatGPT!A2:K2"]
  /\ names_sheet "YouTube" (emitted (check_headers demo_service 0%nat)) = false
  /\ names_sheet "Perplexity" (emitted (check_headers demo_service 0%nat)) = false
  /\ outcome (check_sheet_structure demo_service 0%nat) = inr tt
  /\ fetches (emitted (check_sheet_structure demo_service 0%nat))
     = ["'Gemini'!A1:Z2"; "'ChatGPT'!A1:Z2"; "'YouTube'!A1:Z2";
        "'Perplexity'!A1:Z2"; "'Gemini'!A1:J4"; "'ChatGPT'!A1:J4";
        "'YouTube'!A1:J4"; "'Perplexity'!A1:J4"]
  /\ names_sheet "YouTube" (emitted (check_sheet_structure demo_service 0%nat)) = true
  /\ names_sheet "Perplexity" (emitted (check_sheet_structure demo_service 0%nat)) = true.
Proof. repeat split; vm_compute; reflexivity. Qed.

(** The scenario of the specification, sheets Gemini, Missing, YouTube with
    no tab named Missing.  check_sheet_structure.py prints the decodings of
    Gemini and YouTube and the diagnostic of Missing; check_headers.py stops
    at Missing. *)
Example scenario_missing_sheet :
  outcome (structure_loop demo_service scenario_sheets 0%nat) = inr tt
  /\ printed (emitted (structure_loop demo_service scenario_sheets 0%nat))
     = [ SheetHeading (Some 128203) "Gemini" ""; Rule "-" 80;
         Text "ROW 1 (Title/Label?):"; Entry (ord "A") "AKUN GEMINI";
         Text (String "010" "ROW 2 (Header?):");
         Entry (ord "A") "Name"; Entry (ord "B") "Date"; Entry (ord "C") "";
         Entry (ord "D") "Status"; Blank;
         ErrorReading "Missing"
           (RemoteError (svc:=demo_service) "Unable to parse range: 'Missing'!A1:Z2");
         Blank;
         SheetHeading (Some 128203) "YouTube" ""; Rule "-" 80;
         Text "ROW 1 (Title/Label?):"; Entry (ord "A") "AKUN YOUTUBE";
         Text (String "010" "ROW 2 (Header?):");
         Entry (ord "A") "Email"; Entry (ord "B") "Family"; Blank ]
  /\ reports_error "Missing"
       (RemoteError (svc:=demo_service) "Unable to parse range: 'Missing'!A1:Z2")
       (emitted (structure_loop demo_service scenario_sheets 0%nat))
  /\ fetches (emitted (structure_loop demo_service scenario_sheets 0%nat))
     = structure_range <$> scenario_sheets
  /\ fetches (emitted (check_headers_loop demo_service scenario_sheets 0%nat))
     = ["Gemini!A2:K2"; "Missing!A2:K2"].
Proof.
  split; [vm_compute; reflexivity|]. split; [vm_compute; reflexivity|].
  split; [|split; vm_compute; reflexivity].
  unfold reports_error. apply (nth_error_In _ 12). vm_compute. reflexivity.
Qed.

(** C2, in check_headers.py.  When the read of a sheet fails, the loop of
    check_headers.py ends there with the exception of the client: nothing is
    printed for the sheet and the rest of the list is dropped.  The loop of
    check_sheet_structure.py catches the same failure, prints the diagnostic
    with the sheet name and the cause, and goes on with the rest. *)
Theorem failed_read_escapes_check_headers (svc : Service) (sheet : string)
    (rest : list string) (st : svc_state svc)
    (cause1 cause2 : svc_cause svc) (st1 st2 : svc_state svc) :
  execute svc (headers_range sheet) st = (inl cause1, st1) ->
  execute svc (structure_range sheet) st = (inl cause2, st2) ->
  check_headers_loop svc (sheet :: rest) st
  = mkRun (inl (RemoteError cause1)) st1 [Fetch (headers_range sheet)]
  /\ structure_loop svc (sheet :: rest) st
     = mkRun (inr tt) (final (structure_loop svc rest st2))
         (Fetch (structure_range sheet)
          :: Print (ErrorReading sheet (RemoteError cause2))
          :: Print Blank
          :: emitted (structure_loop svc rest st2)).
Proof.
  intros Hex1 Hex2. split.
  - unfold check_headers_loop. simpl for_each. rewrite bind_run.
    rewrite (check_headers_sheet_fetch_fails svc sheet st cause1 st1 Hex1).
    reflexivity.
  - unfold structure_loop. simpl for_each. rewrite bind_run.
    rewrite (structure_sheet_fetch_fails svc sheet st cause2 st2 Hex2).
    simpl. f_equal.
    apply (for_each_never_raises svc rest _ (structure_sheet_never_raises svc)).
Qed.

Lemma failed_read_escapes_check_headers_witness :
  check_headers_loop demo_service ["ChatGPT"; "YouTube"; "Perplexity"] 0%nat
  = mkRun (svc:=demo_service)
      (inl (RemoteError (svc:=demo_service) "Unable to parse range: ChatGPT!A2:K2"))
      1%nat [Fetch (headers_range "ChatGPT")]
  /\ structure_loop demo_service ["ChatGPT"; "YouTube"; "Perplexity"] 0%nat
     = mkRun (svc:=demo_service) (inr tt)
         (final (structure_loop demo_service ["YouTube"; "Perplexity"] 1%nat))
         (Fetch (structure_range "ChatGPT")
          :: Print (ErrorReading "ChatGPT"
                      (RemoteError (svc:=demo_service)
                         "Unable to parse range: 'ChatGPT'!A1:Z2"))
          :: Print Blank
          :: emitted (structure_loop demo_service ["YouTube"; "Perplexity"] 1%nat)).
Proof.
  apply (failed_read_escapes_check_headers demo_service "ChatGPT"
           ["YouTube"; "Perplexity"] 0%nat); reflexivity.
Defined.

(** ** Letters past 'Z' *)

Section Spans.

Variable svc : Service.

Lemma capital_entries_letters (evs : list (event svc)) :
  forallb capital_entry evs = true ->
  forallb is_upper (printed_letters evs) = true.
Proof.
  induction evs as [|[r|l] evs IH]; simpl; intros Hall; try reflexivity.
  - exact (IH Hall).
  - apply andb_true_iff in Hall as [Hl Hall].
    destruct l; simpl in *; try exact (IH Hall).
    unfold printed_letters in *. simpl. now rewrite Hl, (IH Hall).
Qed.

(** A row within columns A to Z gets capital letters only. *)
Lemma print_entries_capital (row : Row) :
  (length row <= 26)%nat -> only capital_entry (print_entries svc row).
Proof.
  intros Hlen st.
  assert (Hsome : is_Some (decodeHeaders row)).
  { apply decodeHeaders_is_Some. rewrite max_row_length_value. lia. }
  destruct Hsome as [es Hes].
  rewrite (print_entries_decoded svc row es st Hes)
    by (rewrite max_printable_length_value; lia).
  simpl.
  apply forallb_forall. intros ev Hev.
  apply in_map_iff in Hev as (e & <- & He).
  apply list_elem_of_In, list_elem_of_lookup in He as [n He].
  pose proof (lookup_lt_Some _ _ _ He) as Hn.
  rewrite (decodeHeaders_length row es Hes) in Hn.
  destruct (decodeHeaders_lookup row es n e Hes He) as (v & _ & -> & _).
  simpl. apply is_upper_spec. lia.
Qed.

Lemma row_or_empty_length (r : Row) : (length (row_or_empty r) <= length r)%nat.
Proof. unfold row_or_empty. destruct (0 <? Z.of_nat (length r)); simpl; lia. Qed.

(** A read followed by a continuation that behaves on every answer the
    service can give to this range. *)
Lemma only_fetch_bind {A} (P : event svc -> bool) (range : string)
    (k : response -> script svc A) :
  P (Fetch range) = true ->
  (forall st result st',
     execute svc range st = (inr result, st') -> only P (k result)) ->
  only P (get_values svc range ≫= k).
Proof.
  intros Hfetch Hk st. rewrite bind_run, get_values_run.
  destruct (execute svc range st) as [[cause|result] st'] eqn:Hex; simpl;
    rewrite Hfetch; [reflexivity|].
  exact (Hk st result st' Hex st').
Qed.

Hypothesis within_span : answers_within_A_to_Z svc.

Lemma structure_sheet_capital (sheet : string) :
  only capital_entry (structure_sheet svc sheet).
Proof.
  unfold structure_sheet.
  apply only_try_except; [|intros e; unfold report_error; only_steps].
  unfold structure_try. apply only_fetch_bind; [reflexivity|].
  intros st result st' Hex.
  pose proof (within_span sheet st result st' (or_introl Hex)) as Hcols.
  unfold within_columns in Hcols.
  destruct (default [] result) as [|r1 [|r2 rows]]; only_steps.
  - apply print_entries_capital.
    apply Forall_cons in Hcols as [Hr1 _].
    pose proof (row_or_empty_length r1). lia.
  - apply print_entries_capital.
    apply Forall_cons in Hcols as [Hr1 _].
    pose proof (row_or_empty_length r1). lia.
  - apply print_entries_capital.
    apply Forall_cons in Hcols as [_ Hcols].
    apply Forall_cons in Hcols as [Hr2 _].
    pose proof (row_or_empty_length r2). lia.
Qed.

Lemma check_headers_sheet_capital (sheet : string) :
  only capital_entry (check_headers_sheet svc sheet).
Proof.
  unfold check_headers_sheet. apply only_fetch_bind; [reflexivity|].
  intros st result st' Hex.
  pose proof (within_span sheet st result st' (or_intror Hex)) as Hcols.
  unfold within_columns in Hcols.
  only_steps. apply print_entries_capital.
  destruct result as [[|r rows]|]; simpl in *; try lia.
  apply Forall_cons in Hcols as [Hr _]. exact Hr.
Qed.

Lemma header_loops_capital (sheets : list string) (st : svc_state svc) :
  forallb is_upper (printed_letters (emitted (structure_loop svc sheets st))) = true
  /\ forallb is_upper
       (printed_letters (emitted (check_headers_loop svc sheets st))) = true.
Proof.
  split; apply capital_entries_letters.
  - apply (only_for_each svc capital_entry sheets _ structure_sheet_capital).
  - apply (only_for_each svc capital_entry sheets _ check_headers_sheet_capital).
Qed.

End Spans.

(** The workbook client cuts every answer to the columns of the range. *)
Lemma window_within (grid : list Row) (top rows cols : nat) :
  within_columns cols (window grid top rows cols).
Proof.
  unfold within_columns, window.
  assert (Hall : Forall (fun r : Row => (length r <= cols)%nat)
                   (take cols <$> take rows (drop top grid))).
  { apply Forall_fmap, Forall_true. intros r. simpl. rewrite length_take. lia. }
  destruct (take cols <$> take rows (drop top grid)); simpl; [constructor | exact Hall].
Qed.

Lemma within_columns_mono (cols cols' : nat) (result : response) :
  (cols <= cols')%nat -> within_columns cols result -> within_columns cols' result.
Proof.
  unfold within_columns. intros Hle Hall.
  eapply Forall_impl; [exact Hall|]. simpl. intros r Hr. lia.
Qed.

Lemma lookup_range_within (range : string) (book : workbook) (result : response) :
  lookup_range range book = Some result -> within_columns 26 result.
Proof.
  induction book as [|[name grid] book IH]; simpl; [discriminate|].
  destruct (String.eqb range (name ++ "!A2:K2")).
  { intros Heq. inversion Heq.
    apply (within_columns_mono 11); [lia | apply window_within]. }
  destruct (String.eqb range ("'" ++ name ++ "'!A1:Z2")).
  { intros Heq. inversion Heq. apply window_within. }
  destruct (String.eqb range ("'" ++ name ++ "'!A1:J4")).
  { intros Heq. inversion Heq.
    apply (within_columns_mono 10); [lia | apply window_within]. }
  exact IH.
Qed.

Lemma book_service_within (book : workbook) :
  answers_within_A_to_Z (book_service book).
Proof.
  intros sheet st result st' [Hex|Hex]; simpl in Hex;
    match type of Hex with
    | context [lookup_range ?r book] =>
        destruct (lookup_range r book) as [res|] eqn:Hres; [|discriminate];
        inversion Hex; subst; exact (lookup_range_within r book _ Hres)
    end.
Qed.

(** C9, as stated, fails: index 32 is past 25 and chr(65 + 32) is 'a', a
    letter, so an index past 25 does not always give a non-letter. *)
Lemma index_32_gives_letter_a :
  column_letter 32 = Some (ord "a")
  /\ is_letter (ord "a") = true
  /\ ~ (forall i c, 25 < i -> column_letter i = Some c -> is_letter c = false).
Proof.
  split; [reflexivity|]. split; [reflexivity|].
  intros Hnever. specialize (Hnever 32 (ord "a")).
  assert (Hfalse : is_letter (ord "a") = false) by (apply Hnever; [lia | reflexivity]).
  discriminate Hfalse.
Qed.

(** C9, amended.  The letter is chr(65 + index) for every index, with no
    other case.  For the indices 0 to 25 it is one of 'A' to 'Z'.  For an
    index past 25 it is never one of 'A' to 'Z' and never a two-letter name:
    it is the single character of code point 65 + index ('[' at 26, the
    lower-case 'a' at 32), and past code point 0x10FFFF there is no
    character at all.  When the service returns no cell outside the columns
    asked for (A to Z at most), every letter the header loops print is one
    of 'A' to 'Z'. *)
Theorem capital_letters_up_to_25 (svc : Service) (sheets : list string)
    (st : svc_state svc) :
  answers_within_A_to_Z svc ->
  (forall i, column_letter i = chr (65 + i))
  /\ (forall i, 0 <= i <= 25 ->
        exists c, column_letter i = Some c /\ is_upper c = true)
  /\ (forall i c, 25 < i -> column_letter i = Some c ->
        c = 65 + i /\ is_upper c = false)
  /\ (forall i, max_codepoint - 65 < i -> column_letter i = None)
  /\ column_letter 26 = Some (ord "[")
  /\ column_letter 32 = Some (ord "a")
  /\ forallb is_upper
       (printed_letters (emitted (structure_loop svc sheets st))) = true
  /\ forallb is_upper
       (printed_letters (emitted (check_headers_loop svc sheets st))) = true.
Proof.
  intros Hspan.
  split; [reflexivity|]. split; [|split; [|split; [|split; [|split]]]].
  - intros i Hi. exists (65 + i). split.
    + apply column_letter_Some. unfold max_codepoint. lia.
    + apply is_upper_spec. lia.
  - intros i c Hi Hc. apply column_letter_Some in Hc as [_ ->].
    split; [reflexivity|]. apply is_upper_false. lia.
  - intros i Hi. unfold column_letter. apply chr_None. lia.
  - reflexivity.
  - reflexivity.
  - apply header_loops_capital, Hspan.
Qed.

Lemma capital_letters_up_to_25_witness :
  (forall i, column_letter i = chr (65 + i))
  /\ (forall i, 0 <= i <= 25 ->
        exists c, column_letter i = Some c /\ is_upper c = true)
  /\ (forall i c, 25 < i -> column_letter i = Some c ->
        c = 65 + i /\ is_upper c = false)
  /\ (forall i, max_codepoint - 65 < i -> column_letter i = None)
  /\ column_letter 26 = Some (ord "[")
  /\ column_letter 32 = Some (ord "a")
  /\ forallb is_upper
       (printed_letters (emitted (structure_loop demo_service product_sheets 0%nat)))
     = true
  /\ forallb is_upper
       (printed_letters (emitted (check_headers_loop demo_service product_sheets 0%nat)))
     = true.
Proof.
  apply (capital_letters_up_to_25 demo_service product_sheets 0%nat).
  apply book_service_within.
Defined.

(** ** Whole runs of the scripts *)

Section WholeRuns.

Variable svc : Service.

Local Abbreviation script := (script svc).

(** The guard [rows[k] if len(rows[k]) > 0 else []] changes nothing. *)
Lemma row_or_empty_id (r : Row) : row_or_empty r = r.
Proof. destruct r; reflexivity. Qed.

(** A loop of prints prints one line per element and nothing else. *)
Lemma for_each_print {A} (l : list A) (f : A -> line svc) (st : svc_state svc) :
  (forall x, unencodable (f x) = None) ->
  for_each svc l (fun x => print svc (f x)) st
  = mkRun (inr tt) st (Print ∘ f <$> l).
Proof.
  intros Hf. induction l as [|x l IH]; simpl; [reflexivity|].
  rewrite print_then by apply Hf. rewrite IH. reflexivity.
Qed.

Lemma enumerate_imap {A B} (g : Z -> A -> B) (k : Z) (l : list A) :
  (fun ia => g (fst ia) (snd ia)) <$> enumerate k l
  = imap (fun i x => g (k + Z.of_nat i) x) l.
Proof.
  revert k. induction l as [|x l IH]; intros k; simpl; [reflexivity|].
  rewrite Z.add_0_r. f_equal. rewrite IH. apply imap_ext.
  intros i y _. simpl. f_equal. lia.
Qed.

Lemma try_except_ok {A} (body : script A) handler (st : svc_state svc) (a : A) :
  outcome (body st) = inr a -> try_except svc body handler st = body st.
Proof. intros Hok. unfold try_except. now rewrite Hok. Qed.

(** After a part that never raises, the rest runs from the state that part
    left. *)
Lemma then_run {B} (m : script unit) (k : script B) (st : svc_state svc) :
  never_raises m ->
  (m;; k) st
  = mkRun (outcome (k (final (m st)))) (final (k (final (m st))))
      (emitted (m st) ++ emitted (k (final (m st)))).
Proof. intros Hm. rewrite bind_run, (Hm st). reflexivity. Qed.

(** *** Parts that leave the service alone *)

Lemma keeps_ret {A} (a : A) : keeps_state (mret a : script A).
Proof. intros st. reflexivity. Qed.

Lemma keeps_raise {A} e : keeps_state (raise svc e : script A).
Proof. intros st. reflexivity. Qed.

Lemma keeps_print l : keeps_state (print svc l).
Proof. intros st. unfold print. now destruct (unencodable l). Qed.

Lemma keeps_bind {A B} (m : script A) (f : A -> script B) :
  keeps_state m -> (forall a, keeps_state (f a)) -> keeps_state (m ≫= f).
Proof.
  intros Hm Hf st. rewrite bind_run.
  destruct (outcome (m st)) as [e|a]; simpl; [apply Hm|].
  rewrite Hf. apply Hm.
Qed.

Lemma keeps_try_except {A} (body : script A) handler :
  keeps_state body -> (forall e, keeps_state (handler e)) ->
  keeps_state (try_except svc body handler).
Proof.
  intros Hb Hh st. unfold try_except.
  destruct (outcome (body st)) as [e|a]; simpl; [|apply Hb].
  rewrite Hh. apply Hb.
Qed.

Lemma keeps_for_each {A} (l : list A) (body : A -> script unit) :
  (forall x, keeps_state (body x)) -> keeps_state (for_each svc l body).
Proof.
  intros Hbody. induction l as [|x l IH]; simpl.
  - apply keeps_ret.
  - apply keeps_bind; [apply Hbody | intros _; exact IH].
Qed.

Lemma keeps_chr_or_raise i : keeps_state (chr_or_raise svc i).
Proof. unfold chr_or_raise. destruct (chr i); [apply keeps_ret | apply keeps_raise]. Qed.

End WholeRuns.

Ltac keeps_step :=
  lazymatch goal with
  | |- keeps_state (mret _) => apply keeps_ret
  | |- keeps_state (raise _ _) => apply keeps_raise
  | |- keeps_state (chr_or_raise _ _) => apply keeps_chr_or_raise
  | |- keeps_state (print _ _) => apply keeps_print
  | |- keeps_state (print_entries _ _) => unfold print_entries
  | |- keeps_state (report_error _ _ _) => unfold report_error
  | |- keeps_state (for_each _ _ _) => apply keeps_for_each; intros ?
  | |- keeps_state (try_except _ _ _) => apply keeps_try_except; [|intros ?]
  | |- keeps_state (_ ≫= _) => apply keeps_bind; [|intros ?]
  end.

Ltac keeps_steps := repeat keeps_step.

Section ServiceState.

Variable svc : Service.

(** A read followed by a part that leaves the service alone leaves it as the
    read did. *)
Lemma fetch_then_final {A} (range : string) (k : response -> script svc A)
    (st : svc_state svc) :
  (forall result, keeps_state (k result)) ->
  final ((get_values svc range ≫= k) st) = snd (execute svc range st).
Proof.
  intros Hk. rewrite bind_run, get_values_run.
  destruct (fst (execute svc range st)) as [cause|result]; simpl; [reflexivity|].
  apply Hk.
Qed.

Lemma try_except_final {A} (body : script svc A) handler (st : svc_state svc) :
  (forall e, keeps_state (handler e)) ->
  final (try_except svc body handler st) = final (body st).
Proof.
  intros Hh. unfold try_except.
  destruct (outcome (body st)) as [e|a]; simpl; [apply Hh | reflexivity].
Qed.

Lemma structure_sheet_final (sheet : string) (st : svc_state svc) :
  final (structure_sheet svc sheet st)
  = snd (execute svc (structure_range sheet) st).
Proof.
  unfold structure_sheet. rewrite try_except_final by (intros e; keeps_steps).
  unfold structure_try. apply fetch_then_final. intros result.
  destruct (default [] result) as [|r1 [|r2 rows]]; keeps_steps.
Qed.

Lemma sample_sheet_final (sheet : string) (st : svc_state svc) :
  final (sample_sheet svc sheet st)
  = snd (execute svc (sample_range sheet) st).
Proof.
  unfold sample_sheet. rewrite try_except_final by (intros e; keeps_steps).
  unfold sample_try. apply fetch_then_final. intros result.
  destruct (default [] result) as [|r1 rows]; keeps_steps.
Qed.

Lemma check_headers_sheet_final (sheet : string) (st : svc_state svc) :
  final (check_headers_sheet svc sheet st)
  = snd (execute svc (headers_range sheet) st).
Proof.
  unfold check_headers_sheet. apply fetch_then_final. intros result. keeps_steps.
Qed.

(** A loop whose body never raises and does one read per element leaves the
    service as the reads of all elements, in order, leave it. *)
Lemma guarded_loop_final (body : string -> script svc unit)
    (range : string -> string) (sheets : list string) (st : svc_state svc) :
  (forall s, never_raises (body s)) ->
  (forall s st', final (body s st') = snd (execute svc (range s) st')) ->
  final (for_each svc sheets body st) = after_reads svc (range <$> sheets) st.
Proof.
  intros Hnever Hfinal. revert st.
  induction sheets as [|s sheets IH]; intros st; simpl; [reflexivity|].
  rewrite then_run by apply Hnever. simpl. rewrite IH, Hfinal. reflexivity.
Qed.

Lemma after_reads_app (ranges ranges' : list string) (st : svc_state svc) :
  after_reads svc (ranges ++ ranges') st
  = after_reads svc ranges' (after_reads svc ranges st).
Proof. unfold after_reads. apply fold_left_app. Qed.

(** The second half of check_sheet_structure.py, lines 61 to 91. *)
Lemma samples_part_run (st : svc_state svc) :
  (print svc (Rule "=" 80);;
   print svc (Text "CHECKING DATA SAMPLES (First 3 rows)");;
   print svc (Rule "=" 80);;
   print svc Blank;;
   sample_loop svc sheets_to_check;;
   print svc Done) st
  = mkRun (inr tt) (final (sample_loop svc sheets_to_check st))
      ([Print (Rule "=" 80);
        Print (Text "CHECKING DATA SAMPLES (First 3 rows)");
        Print (Rule "=" 80); Print Blank]
       ++ emitted (sample_loop svc sheets_to_check st)
       ++ [Print Done]).
Proof.
  rewrite !print_then by reflexivity.
  rewrite then_run
    by (apply for_each_never_raises, sample_sheet_never_raises).
  reflexivity.
Qed.

(** The run of check_sheet_structure.py, in its parts: the first banner, the
    header loop, the second banner, the sample loop from the state the
    header loop left, and the closing line. *)
Lemma check_sheet_structure_run (st : svc_state svc) :
  check_sheet_structure svc st
  = mkRun (inr tt)
      (final (sample_loop svc sheets_to_check
                (final (structure_loop svc sheets_to_check st))))
      ([Print (Rule "=" 80);
        Print (Text "STRUKTUR HEADER GOOGLE SHEETS - AUDIT");
        Print (Rule "=" 80); Print Blank]
       ++ emitted (structure_loop svc sheets_to_check st)
       ++ [Print (Rule "=" 80);
           Print (Text "CHECKING DATA SAMPLES (First 3 rows)");
           Print (Rule "=" 80); Print Blank]
       ++ emitted (sample_loop svc sheets_to_check
                     (final (structure_loop svc sheets_to_check st)))
       ++ [Print Done]).
Proof.
  unfold check_sheet_structure. rewrite !print_then by reflexivity.
  rewrite then_run
    by (apply for_each_never_raises, structure_sheet_never_raises).
  rewrite samples_part_run. reflexivity.
Qed.

End ServiceState.

Lemma sample_loop_fetches (svc : Service) (sheets : list string)
    (st : svc_state svc) :
  fetches (emitted (sample_loop svc sheets st)) = sample_range <$> sheets.
Proof.
  destruct (sample_loop_blocks svc sheets st) as (_ & blocks & -> & Hall).
  apply blocks_fetches. eapply Forall2_impl; [exact Hall|].
  intros s b [Hb _]. exact Hb.
Qed.

(** X1.  check_sheet_structure.py always runs to its end, whatever the
    service does: it ends normally, it opens with its banner and closes with
    the line [Done!] even when every read failed, and it makes exactly eight
    reads, the A1:Z2 range of the four sheets in list order and then their
    A1:J4 range in the same order. *)
Theorem check_sheet_structure_always_completes (svc : Service)
    (st : svc_state svc) :
  outcome (check_sheet_structure svc st) = inr tt
  /\ take 4 (emitted (check_sheet_structure svc st))
     = [Print (Rule "=" 80);
        Print (Text "STRUKTUR HEADER GOOGLE SHEETS - AUDIT");
        Print (Rule "=" 80); Print Blank]
  /\ last (emitted (check_sheet_structure svc st)) = Some (Print Done)
  /\ fetches (emitted (check_sheet_structure svc st))
     = ((structure_range <$> sheets_to_check)
        ++ (sample_range <$> sheets_to_check))%list.
Proof.
  rewrite check_sheet_structure_run. cbn [outcome emitted].
  split; [reflexivity|]. split; [reflexivity|]. split.
  - rewrite !app_assoc. apply last_snoc.
  - rewrite !fetches_app, structure_loop_fetches, sample_loop_fetches.
    reflexivity.
Qed.

(** X2.  The only thing the scripts do to the service is read: after the
    header loop of check_sheet_structure.py over any list the service is in
    the state the reads of the A1:Z2 ranges leave, in list order and
    whatever they answered; likewise for the sample loop and the A1:J4
    ranges; and after the whole script it is in the state the eight reads
    leave.  A sheet of check_headers.py leaves the state of its one read,
    failed or not. *)
Theorem scripts_only_read (svc : Service) (sheets : list string)
    (sheet : string) (st : svc_state svc) :
  final (structure_loop svc sheets st)
  = after_reads svc (structure_range <$> sheets) st
  /\ final (sample_loop svc sheets st)
     = after_reads svc (sample_range <$> sheets) st
  /\ final (check_sheet_structure svc st)
     = after_reads svc
         ((structure_range <$> sheets_to_check)
          ++ (sample_range <$> sheets_to_check))%list st
  /\ final (check_headers_sheet svc sheet st)
     = after_reads svc [headers_range sheet] st.
Proof.
  assert (Hstructure : forall l s,
            final (structure_loop svc l s)
            = after_reads svc (structure_range <$> l) s).
  { intros l s. apply guarded_loop_final.
    - apply structure_sheet_never_raises.
    - apply structure_sheet_final. }
  assert (Hsample : forall l s,
            final (sample_loop svc l s)
            = after_reads svc (sample_range <$> l) s).
  { intros l s. apply guarded_loop_final.
    - apply sample_sheet_never_raises.
    - apply sample_sheet_final. }
  split; [apply Hstructure|]. split; [apply Hsample|]. split.
  - rewrite check_sheet_structure_run. cbn [final].
    now rewrite Hsample, Hstructure, after_reads_app.
  - apply check_headers_sheet_final.
Qed.

(** *** Parts that only print *)

Section Printing.

Variable svc : Service.

Lemma prints_ret : prints (mret tt : script svc unit) [].
Proof. intros st. reflexivity. Qed.

Lemma prints_print (l : line svc) :
  unencodable l = None -> prints (print svc l) [Print l].
Proof. intros Hl st. now apply print_run. Qed.

Lemma prints_seq (m k : script svc unit) (evs evs' : list (event svc)) :
  prints m evs -> prints k evs' -> prints (m;; k) (evs ++ evs').
Proof.
  intros Hm Hk st. rewrite bind_run, !(Hm st). cbn [outcome final emitted].
  rewrite !(Hk st). reflexivity.
Qed.

Lemma prints_eq (m : script svc unit) (evs evs' : list (event svc)) :
  prints m evs -> evs = evs' -> prints m evs'.
Proof. intros Hm <-. exact Hm. Qed.

Lemma prints_print_entries (row : Row) (es : list HeaderEntry) :
  decodeHeaders row = Some es ->
  Z.of_nat (length row) <= max_printable_length ->
  prints (print_entries svc row) (Print ∘ entry_line <$> es).
Proof. intros Hes Hlen st. now apply print_entries_decoded. Qed.

Lemma prints_for_each_print {A} (l : list A) (f : A -> line svc) :
  (forall x, unencodable (f x) = None) ->
  prints (for_each svc l (fun x => print svc (f x))) (Print ∘ f <$> l).
Proof. intros Hf st. now apply for_each_print. Qed.

(** A successful read followed by a part that only prints. *)
Lemma fetch_then_prints (range : string) (k : response -> script svc unit)
    (st st' : svc_state svc) (result : response) (evs : list (event svc)) :
  execute svc range st = (inr result, st') ->
  prints (k result) evs ->
  (get_values svc range ≫= k) st = mkRun (inr tt) st' (Fetch range :: evs).
Proof.
  intros Hex Hk. rewrite bind_run, get_values_run, Hex.
  cbn [fst snd outcome final emitted]. rewrite !(Hk st'). reflexivity.
Qed.

(** A read that fails, under the handler of check_sheet_structure.py. *)
Lemma guarded_fetch_fails (range sheet : string) (k : response -> script svc unit)
    (st st' : svc_state svc) (cause : svc_cause svc) :
  execute svc range st = (inl cause, st') ->
  try_except svc (get_values svc range ≫= k) (report_error svc sheet) st
  = mkRun (inr tt) st'
      [Fetch range; Print (ErrorReading sheet (RemoteError cause)); Print Blank].
Proof.
  intros Hex. unfold try_except. rewrite bind_run, get_values_run, Hex.
  reflexivity.
Qed.

End Printing.

Ltac prints_step :=
  lazymatch goal with
  | |- prints (mret tt) _ => apply prints_ret
  | |- prints (print _ _) _ => apply prints_print; reflexivity
  | |- prints (print_entries _ _) _ =>
      eapply prints_print_entries; rewrite ?row_or_empty_id; eassumption
  | |- prints (for_each _ _ _) _ =>
      apply prints_for_each_print; intros ?; reflexivity
  | |- prints (_ ≫= _) _ => eapply prints_seq
  end.

Ltac prints_steps := repeat prints_step.



(** *** The data-sample loop *)

Section Samples.

Variable svc : Service.

Lemma sample_sheet_rows_run (sheet : string) (st st' : svc_state svc)
    (r1 : Row) (rest : list Row) :
  execute svc (sample_range sheet) st = (inr (Some (r1 :: rest)), st') ->
  sample_sheet svc sheet st
  = mkRun (inr tt) st'
      (Fetch (sample_range sheet)
       :: Print (SheetHeading (Some 128202) sheet " - Data Sample")
       :: Print (Rule "-" 80)
       :: Print (HeaderDump r1)
       :: imap (fun i row => Print (DataDump (2 + Z.of_nat i) row)) (take 3 rest)
          ++ [Print Blank]).
Proof.
  intros Hex.
  assert (Hbody : sample_try svc sheet st
                  = mkRun (inr tt) st'
                      (Fetch (sample_range sheet)
                       :: Print (SheetHeading (Some 128202) sheet " - Data Sample")
                       :: Print (Rule "-" 80)
                       :: Print (HeaderDump r1)
                       :: imap (fun i row => Print (DataDump (2 + Z.of_nat i) row))
                            (take 3 rest)
                          ++ [Print Blank])).
  { unfold sample_try.
    apply (fetch_then_prints svc _ _ st st' (Some (r1 :: rest))); [exact Hex|].
    simpl default. cbv zeta.
    eapply prints_eq; [prints_steps|].
    rewrite <- (enumerate_imap (fun i row => Print (DataDump i row))).
    reflexivity. }
  unfold sample_sheet.
  rewrite (try_except_ok svc _ _ st tt) by (rewrite Hbody; reflexivity).
  exact Hbody.
Qed.

Lemma sample_sheet_no_data_run (sheet : string) (st st' : svc_state svc)
    (result : response) :
  execute svc (sample_range sheet) st = (inr result, st') ->
  default [] result = [] ->
  sample_sheet svc sheet st
  = mkRun (inr tt) st'
      [Fetch (sample_range sheet);
       Print (SheetHeading (Some 128202) sheet " - Data Sample");
       Print (Rule "-" 80); Print (Text "  (No data)"); Print Blank].
Proof.
  intros Hex Hempty.
  assert (Hbody : sample_try svc sheet st
                  = mkRun (inr tt) st'
                      [Fetch (sample_range sheet);
                       Print (SheetHeading (Some 128202) sheet " - Data Sample");
                       Print (Rule "-" 80); Print (Text "  (No data)");
                       Print Blank]).
  { unfold sample_try.
    apply (fetch_then_prints svc _ _ st st' result); [exact Hex|].
    rewrite Hempty. cbv zeta.
    eapply prints_eq; [prints_steps | reflexivity]. }
  unfold sample_sheet.
  rewrite (try_except_ok svc _ _ st tt) by (rewrite Hbody; reflexivity).
  exact Hbody.
Qed.

Lemma sample_sheet_fetch_fails (sheet : string) (st st' : svc_state svc)
    (cause : svc_cause svc) :
  execute svc (sample_range sheet) st = (inl cause, st') ->
  sample_sheet svc sheet st
  = mkRun (inr tt) st'
      [Fetch (sample_range sheet);
       Print (ErrorReading sheet (RemoteError cause)); Print Blank].
Proof.
  intros Hex. unfold sample_sheet, sample_try.
  apply (guarded_fetch_fails svc _ sheet _ st st' cause Hex).
Qed.

Lemma data_dumps_no_diagnostic (k : Z) (rows : list Row) :
  existsb is_diagnostic
    (imap (fun i row => Print (svc:=svc) (DataDump (k + Z.of_nat i) row)) rows)
  = false.
Proof.
  apply not_true_iff_false. intros Hex.
  apply existsb_exists in Hex as (ev & Hin & Hdiag).
  apply list_elem_of_In, elem_of_lookup_imap in Hin as (i & row & -> & _).
  discriminate Hdiag.
Qed.

Lemma printed_app (evs evs' : list (event svc)) :
  printed (evs ++ evs') = (printed evs ++ printed evs')%list.
Proof. unfold printed. apply omap_app. Qed.

Lemma printed_imap_print {A} (f : nat -> A -> line svc) (l : list A) :
  printed (imap (fun i x => Print (f i x)) l) = imap f l.
Proof.
  revert f. induction l as [|x l IH]; intros f; [reflexivity|].
  change (f 0%nat x :: printed (imap (fun i y => Print ((f ∘ S) i y)) l)
          = f 0%nat x :: imap (f ∘ S) l).
  now rewrite IH.
Qed.

End Samples.

(** X4.  The data sample of a sheet with rows: after the heading, the first
    row of the answer is printed as the header and at most three further
    rows as data, and the number printed with a data row is its 1-based
    position in the answer (2, 3 or 4); rows after the fourth are not
    shown. *)
Theorem sample_sheet_numbers_rows (svc : Service) (sheet : string)
    (st st' : svc_state svc) (r1 : Row) (rest : list Row) :
  execute svc (sample_range sheet) st = (inr (Some (r1 :: rest)), st') ->
  printed (emitted (sample_sheet svc sheet st))
  = ([SheetHeading (Some 128202) sheet " - Data Sample"; Rule "-" 80;
      HeaderDump r1]
     ++ imap (fun i row => DataDump (2 + Z.of_nat i) row) (take 3 rest)
     ++ [Blank])%list
  /\ (forall idx row,
        In (Print (DataDump idx row)) (emitted (sample_sheet svc sheet st)) ->
        2 <= idx <= 4 /\ (r1 :: rest) !! Z.to_nat (idx - 1) = Some row)
  /\ length (emitted (sample_sheet svc sheet st))
     = (5 + Nat.min 3 (length rest))%nat.
Proof.
  intros Hex. rewrite (sample_sheet_rows_run svc sheet st st' r1 rest Hex).
  cbn [emitted]. split; [|split].
  - change (printed (svc:=svc)
              ([Fetch (sample_range sheet);
                Print (SheetHeading (Some 128202) sheet " - Data Sample");
                Print (Rule "-" 80); Print (HeaderDump r1)]
               ++ imap (fun i row => Print (DataDump (2 + Z.of_nat i) row))
                    (take 3 rest)
               ++ [Print Blank])
            = ([SheetHeading (Some 128202) sheet " - Data Sample"; Rule "-" 80;
                HeaderDump r1]
               ++ imap (fun i row => DataDump (2 + Z.of_nat i) row) (take 3 rest)
               ++ [Blank])%list).
    rewrite !printed_app, printed_imap_print. reflexivity.
  - intros idx row Hin.
    repeat (destruct Hin as [Hin|Hin]; [discriminate Hin|]).
    apply in_app_or in Hin as [Hin|Hin].
    + apply list_elem_of_In, elem_of_lookup_imap in Hin as (i & y & Heq & Hy).
      inversion Heq; subst idx y.
      apply lookup_take_Some in Hy as [Hy Hi].
      split; [lia|].
      replace (Z.to_nat (2 + Z.of_nat i - 1)) with (S i) by lia. exact Hy.
    + destruct Hin as [Hin|[]]. discriminate Hin.
  - simpl. rewrite length_app, length_imap, length_take. simpl. lia.
Qed.

Lemma sample_sheet_numbers_rows_witness :
  printed (emitted (sample_sheet complete_service "Gemini" 0%nat))
  = ([SheetHeading (Some 128202) "Gemini" " - Data Sample"; Rule "-" 80;
      HeaderDump ["AKUN GEMINI"]]
     ++ imap (fun i row => DataDump (2 + Z.of_nat i) row)
          (take 3 [["Name"; "Date"; ""; "Status"];
                   ["Ani"; "2024-01-05"; ""; "Active"];
                   ["Budi"; "2024-02-11"; ""; "Expired"]])
     ++ [Blank])%list
  /\ (forall idx row,
        In (Print (DataDump idx row))
          (emitted (sample_sheet complete_service "Gemini" 0%nat)) ->
        2 <= idx <= 4
        /\ (["AKUN GEMINI"]
            :: [["Name"; "Date"; ""; "Status"];
                ["Ani"; "2024-01-05"; ""; "Active"];
                ["Budi"; "2024-02-11"; ""; "Expired"]]) !! Z.to_nat (idx - 1)
           = Some row)
  /\ length (emitted (sample_sheet complete_service "Gemini" 0%nat))
     = (5 + Nat.min 3
              (length [["Name"; "Date"; ""; "Status"];
                       ["Ani"; "2024-01-05"; ""; "Active"];
                       ["Budi"; "2024-02-11"; ""; "Expired"]]))%nat.
Proof.
  apply (sample_sheet_numbers_rows complete_service "Gemini" 0%nat 1%nat).
  reflexivity.
Defined.

(** X5.  The data sample of a sheet without data: when the read succeeds
    and the answer has no [values] key, or an empty [values] list, the
    script prints the heading and the line [(No data)], with no diagnostic,
    and goes on normally. *)
Theorem sample_sheet_no_data (svc : Service) (sheet : string)
    (st st' : svc_state svc) (result : response) :
  execute svc (sample_range sheet) st = (inr result, st') ->
  result = None \/ result = Some [] ->
  sample_sheet svc sheet st
  = mkRun (inr tt) st'
      [Fetch (sample_range sheet);
       Print (SheetHeading (Some 128202) sheet " - Data Sample");
       Print (Rule "-" 80); Print (Text "  (No data)"); Print Blank].
Proof.
  intros Hex Hresult. apply (sample_sheet_no_data_run svc sheet st st' result Hex).
  destruct Hresult as [-> | ->]; reflexivity.
Qed.

Lemma sample_sheet_no_data_witness :
  sample_sheet complete_service "Perplexity" 0%nat
  = mkRun (svc:=complete_service) (inr tt) 1%nat
      [Fetch (sample_range "Perplexity");
       Print (SheetHeading (Some 128202) "Perplexity" " - Data Sample");
       Print (Rule "-" 80); Print (Text "  (No data)"); Print Blank].
Proof.
  apply (sample_sheet_no_data complete_service "Perplexity" 0%nat 1%nat None).
  - reflexivity.
  - left. reflexivity.
Defined.

(** X6.  In the data-sample loop a diagnostic is printed for a sheet exactly
    when its read failed: then the block is the call, the diagnostic with
    the cause and a blank line, with no heading; when the read succeeds
    nothing after it can raise, so no diagnostic appears.  Either way the
    sheet ends normally. *)
Theorem sample_diagnostic_iff_read_failed (svc : Service) (sheet : string)
    (st : svc_state svc) :
  outcome (sample_sheet svc sheet st) = inr tt
  /\ existsb is_diagnostic (emitted (sample_sheet svc sheet st))
     = match fst (execute svc (sample_range sheet) st) with
       | inl _ => true
       | inr _ => false
       end
  /\ match fst (execute svc (sample_range sheet) st) with
     | inl cause =>
         emitted (sample_sheet svc sheet st)
         = [Fetch (sample_range sheet);
            Print (ErrorReading sheet (RemoteError cause)); Print Blank]
     | inr _ =>
         nth_error (emitted (sample_sheet svc sheet st)) 1
         = Some (Print (SheetHeading (Some 128202) sheet " - Data Sample"))
     end.
Proof.
  destruct (execute svc (sample_range sheet) st) as [[cause|result] st'] eqn:Hex;
    cbn [fst].
  - unfold sample_sheet, sample_try.
    rewrite (guarded_fetch_fails svc _ sheet _ st st' cause Hex).
    repeat split.
  - destruct result as [[|r1 rest]|].
    + rewrite (sample_sheet_no_data_run svc sheet st st' _ Hex eq_refl).
      repeat split.
    + rewrite (sample_sheet_rows_run svc sheet st st' r1 rest Hex).
      split; [reflexivity|]. split; [|reflexivity].
      cbn [emitted existsb is_diagnostic orb].
      rewrite existsb_app, data_dumps_no_diagnostic. reflexivity.
    + rewrite (sample_sheet_no_data_run svc sheet st st' _ Hex eq_refl).
      repeat split.
Qed.

(** *** check_headers.py on its own *)

Section CheckHeaders.

Variable svc : Service.



Lemma check_headers_no_diagnostic :
  only (fun ev => negb (is_diagnostic ev)) (check_headers svc).
Proof.
  unfold check_headers, check_headers_loop. only_steps.
  unfold check_headers_sheet. apply only_fetch_bind; [reflexivity|].
  intros st result st' _. unfold print_entries. only_steps.
Qed.

End CheckHeaders.



(** X8.  check_headers.py never prints a diagnostic: whatever the service
    does, no [Error reading] line is in its output, so a failed read is not
    reported on the console at all; the output still opens with the banner,
    also when the first read fails. *)
Theorem check_headers_never_reports (svc : Service) (st : svc_state svc) :
  existsb is_diagnostic (emitted (check_headers svc st)) = false
  /\ take 4 (emitted (check_headers svc st))
     = [Print (Rule "=" 80);
        Print (Text "STRUKTUR AKTUAL SEMUA PRODUCT SHEETS");
        Print (Rule "=" 80); Print Blank].
Proof.
  split.
  - pose proof (check_headers_no_diagnostic svc st) as Hall.
    apply not_true_iff_false. intros Hex.
    apply existsb_exists in Hex as (ev & Hin & Hdiag).
    rewrite forallb_forall in Hall. specialize (Hall ev Hin).
    rewrite Hdiag in Hall. discriminate Hall.
  - unfold check_headers. rewrite !print_then by reflexivity. reflexivity.
Qed.



(** X10.  In a decoded listing of any length no letter is used twice, and
    the index of an entry can be read back from its letter: it is the code
    point of the letter minus 65.  This holds past column Z as well, where
    the characters are no longer capitals. *)
Theorem decoded_letters_distinct (row : Row) (es : list HeaderEntry) :
  decodeHeaders row = Some es ->
  NoDup (col_letter <$> es)
  /\ Forall (fun e => col_index e = col_letter e - 65) es.
Proof.
  intros Hdec. split.
  - apply NoDup_alt. intros i j c Hi Hj.
    rewrite list_lookup_fmap in Hi, Hj.
    apply fmap_Some in Hi as (ei & Hei & ->).
    apply fmap_Some in Hj as (ej & Hej & Heq).
    destruct (decodeHeaders_lookup row es i ei Hdec Hei) as (vi & _ & -> & _).
    destruct (decodeHeaders_lookup row es j ej Hdec Hej) as (vj & _ & -> & _).
    simpl in Heq. lia.
  - apply Forall_lookup. intros n e He.
    destruct (decodeHeaders_lookup row es n e Hdec He) as (v & _ & -> & _).
    simpl. lia.
Qed.

Lemma decoded_letters_distinct_witness :
  NoDup (col_letter <$> [mkEntry 0 65 "Name"; mkEntry 1 66 "Date";
                         mkEntry 2 67 ""; mkEntry 3 68 "Status"])
  /\ Forall (fun e => col_index e = col_letter e - 65)
       [mkEntry 0 65 "Name"; mkEntry 1 66 "Date"; mkEntry 2 67 "";
        mkEntry 3 68 "Status"].
Proof.
  apply (decoded_letters_distinct ["Name"; "Date"; ""; "Status"]). reflexivity.
Defined.

(** X11.  The loops compose along the list.  In check_sheet_structure.py
    the header loop over [l1 ++ l2] is the loop over [l1] followed by the
    loop over [l2] from the state the first left, and the same holds for the
    sample loop.  In check_headers.py the loop over [l1 ++ l2] is the loop
    over [l1] alone when that one raises, and otherwise continues with
    [l2]. *)
Theorem loops_compose (svc : Service) (l1 l2 : list string)
    (st : svc_state svc) :
  structure_loop svc (l1 ++ l2) st
  = mkRun (inr tt)
      (final (structure_loop svc l2 (final (structure_loop svc l1 st))))
      (emitted (structure_loop svc l1 st)
       ++ emitted (structure_loop svc l2 (final (structure_loop svc l1 st))))
  /\ sample_loop svc (l1 ++ l2) st
     = mkRun (inr tt)
         (final (sample_loop svc l2 (final (sample_loop svc l1 st))))
         (emitted (sample_loop svc l1 st)
          ++ emitted (sample_loop svc l2 (final (sample_loop svc l1 st))))
  /\ check_headers_loop svc (l1 ++ l2) st
     = match outcome (check_headers_loop svc l1 st) with
       | inl _ => check_headers_loop svc l1 st
       | inr _ =>
           mkRun
             (outcome (check_headers_loop svc l2
                         (final (check_headers_loop svc l1 st))))
             (final (check_headers_loop svc l2
                       (final (check_headers_loop svc l1 st))))
             (emitted (check_headers_loop svc l1 st)
              ++ emitted (check_headers_loop svc l2
                            (final (check_headers_loop svc l1 st))))
       end.
Proof.
  split; [|split].
  - unfold structure_loop. rewrite for_each_app.
    rewrite then_run by apply for_each_never_raises, structure_sheet_never_raises.
    f_equal. apply for_each_never_raises, structure_sheet_never_raises.
  - unfold sample_loop. rewrite for_each_app.
    rewrite then_run by apply for_each_never_raises, sample_sheet_never_raises.
    f_equal. apply for_each_never_raises, sample_sheet_never_raises.
  - unfold check_headers_loop. rewrite for_each_app, bind_run.
    destruct (outcome (for_each svc l1 (check_headers_sheet svc) st)) as [e|a] eqn:Hout.
    + rewrite <- Hout. symmetry. apply run_eta.
    + reflexivity.
Qed.

(** X12.  Where check_headers.py stops.  If the sheets before [sheet] were
    processed normally and the read of [sheet] fails, the run over the whole
    list ends with the exception of that read, in the state the read left;
    its events are those of the sheets before plus the one failed call, and
    no sheet after [sheet] is read. *)
Theorem check_headers_stops_at_first_failure (svc : Service)
    (before after : list string) (sheet : string) (st st' : svc_state svc)
    (cause : svc_cause svc) :
  outcome (check_headers_loop svc before st) = inr tt ->
  execute svc (headers_range sheet) (final (check_headers_loop svc before st))
  = (inl cause, st') ->
  check_headers_loop svc (before ++ sheet :: after) st
  = mkRun (inl (RemoteError cause)) st'
      (emitted (check_headers_loop svc before st) ++ [Fetch (headers_range sheet)])
  /\ fetches (emitted (check_headers_loop svc (before ++ sheet :: after) st))
     = (fetches (emitted (check_headers_loop svc before st))
        ++ [headers_range sheet])%list.
Proof.
  intros Hout Hex.
  assert (Hrun : check_headers_loop svc (before ++ sheet :: after) st
                 = mkRun (inl (RemoteError cause)) st'
                     (emitted (check_headers_loop svc before st)
                      ++ [Fetch (headers_range sheet)])).
  { unfold check_headers_loop in *. rewrite for_each_app, bind_run, Hout.
    simpl for_each. rewrite bind_run.
    rewrite (check_headers_sheet_fetch_fails svc sheet _ cause st' Hex).
    reflexivity. }
  split; [exact Hrun|].
  rewrite Hrun. cbn [emitted]. rewrite fetches_app. reflexivity.
Qed.

Lemma check_headers_stops_at_first_failure_witness :
  check_headers_loop demo_service (["Gemini"] ++ "ChatGPT" :: ["YouTube"; "Perplexity"])
    0%nat
  = mkRun (svc:=demo_service)
      (inl (RemoteError (svc:=demo_service) "Unable to parse range: ChatGPT!A2:K2"))
      2%nat
      (emitted (check_headers_loop demo_service ["Gemini"] 0%nat)
       ++ [Fetch (headers_range "ChatGPT")])
  /\ fetches
       (emitted
          (check_headers_loop demo_service
             (["Gemini"] ++ "ChatGPT" :: ["YouTube"; "Perplexity"]) 0%nat))
     = (fetches (emitted (check_headers_loop demo_service ["Gemini"] 0%nat))
        ++ [headers_range "ChatGPT"])%list.
Proof.
  apply (check_headers_stops_at_first_failure demo_service ["Gemini"]
           ["YouTube"; "Perplexity"] "ChatGPT" 0%nat 2%nat);
    reflexivity.
Defined.

(** X13.  Where check_sheet_structure.py goes on.  In both of its loops, a
    sheet whose read fails, at any position of the list, gets the call, the
    diagnostic with the sheet name and the cause and a blank line, and the
    loop continues with the sheets after it from the state the failed read
    left; the loop as a whole ends normally. *)
Theorem guarded_loops_go_on_after_failure (svc : Service)
    (before after : list string) (sheet : string) (st : svc_state svc)
    (cause1 cause2 : svc_cause svc) (st1 st2 : svc_state svc) :
  execute svc (structure_range sheet) (final (structure_loop svc before st))
  = (inl cause1, st1) ->
  execute svc (sample_range sheet) (final (sample_loop svc before st))
  = (inl cause2, st2) ->
  structure_loop svc (before ++ sheet :: after) st
  = mkRun (inr tt) (final (structure_loop svc after st1))
      (emitted (structure_loop svc before st)
       ++ Fetch (structure_range sheet)
          :: Print (ErrorReading sheet (RemoteError cause1))
          :: Print Blank
          :: emitted (structure_loop svc after st1))
  /\ sample_loop svc (before ++ sheet :: after) st
     = mkRun (inr tt) (final (sample_loop svc after st2))
         (emitted (sample_loop svc before st)
          ++ Fetch (sample_range sheet)
             :: Print (ErrorReading sheet (RemoteError cause2))
             :: Print Blank
             :: emitted (sample_loop svc after st2)).
Proof.
  intros Hex1 Hex2. split.
  - unfold structure_loop in *. rewrite for_each_app.
    rewrite then_run by apply for_each_never_raises, structure_sheet_never_raises.
    simpl for_each.
    rewrite then_run by apply structure_sheet_never_raises.
    rewrite !(structure_sheet_fetch_fails svc sheet _ cause1 st1 Hex1).
    cbn [outcome final emitted].
    rewrite (for_each_never_raises svc after _ (structure_sheet_never_raises svc) st1).
    reflexivity.
  - unfold sample_loop in *. rewrite for_each_app.
    rewrite then_run by apply for_each_never_raises, sample_sheet_never_raises.
    simpl for_each.
    rewrite then_run by apply sample_sheet_never_raises.
    rewrite !(sample_sheet_fetch_fails svc sheet _ st2 cause2 Hex2).
    cbn [outcome final emitted].
    rewrite (for_each_never_raises svc after _ (sample_sheet_never_raises svc) st2).
    reflexivity.
Qed.

Lemma guarded_loops_go_on_after_failure_witness :
  structure_loop demo_service (["Gemini"] ++ "ChatGPT" :: ["YouTube"; "Perplexity"])
    0%nat
  = mkRun (svc:=demo_service) (inr tt)
      (final (structure_loop demo_service ["YouTube"; "Perplexity"] 2%nat))
      (emitted (structure_loop demo_service ["Gemini"] 0%nat)
       ++ Fetch (structure_range "ChatGPT")
          :: Print (ErrorReading "ChatGPT"
                      (RemoteError (svc:=demo_service)
                         "Unable to parse range: 'ChatGPT'!A1:Z2"))
          :: Print Blank
          :: emitted (structure_loop demo_service ["YouTube"; "Perplexity"] 2%nat))
  /\ sample_loop demo_service (["Gemini"] ++ "ChatGPT" :: ["YouTube"; "Perplexity"])
       0%nat
     = mkRun (svc:=demo_service) (inr tt)
         (final (sample_loop demo_service ["YouTube"; "Perplexity"] 2%nat))
         (emitted (sample_loop demo_service ["Gemini"] 0%nat)
          ++ Fetch (sample_range "ChatGPT")
             :: Print (ErrorReading "ChatGPT"
                         (RemoteError (svc:=demo_service)
                            "Unable to parse range: 'ChatGPT'!A1:J4"))
             :: Print Blank
             :: emitted (sample_loop demo_service ["YouTube"; "Perplexity"] 2%nat)).
Proof.
  apply (guarded_loops_go_on_after_failure demo_service ["Gemini"]
           ["YouTube"; "Perplexity"] "ChatGPT" 0%nat);
    reflexivity.
Defined.

(** ** The order of the sheets *)

Section Order.

Variable svc : Service.

(** The events of a loop whose body does one read per sheet are the events
    of the body on the sheets in list order, each from the state the reads
    before it left; the loop stops after the first body that raises. *)
Lemma loop_emitted (body : string -> script svc unit)
    (range : string -> string) (sheets : list string) (st : svc_state svc) :
  (forall s st', final (body s st') = snd (execute svc (range s) st')) ->
  exists k : nat,
    emitted (for_each svc sheets body st)
    = concat (imap (fun i s =>
                      emitted (body s (after_reads svc (range <$> take i sheets) st)))
                (take k sheets))
    /\ match outcome (for_each svc sheets body st) with
       | inr _ => k = length sheets
       | inl _ => (1 <= k <= length sheets)%nat
       end.
Proof.
  intros Hfinal. revert st. induction sheets as [|s sheets IH]; intros st.
  - exists 0%nat. split; reflexivity.
  - simpl for_each. rewrite bind_run.
    destruct (outcome (body s st)) as [e|[]] eqn:Hs.
    + exists 1%nat. cbn [outcome emitted]. split; [|simpl; lia].
      simpl. now rewrite app_nil_r.
    + destruct (IH (final (body s st))) as (k & Hem & Hk).
      exists (S k). cbn [outcome emitted]. split.
      * rewrite Hem. simpl. f_equal. f_equal. apply imap_ext.
        intros i x _. simpl. now rewrite Hfinal.
      * destruct (outcome (for_each svc sheets body (final (body s st))));
          simpl; lia.
Qed.

Lemma guarded_loop_emitted (body : string -> script svc unit)
    (range : string -> string) (sheets : list string) (st : svc_state svc) :
  (forall s, never_raises (body s)) ->
  (forall s st', final (body s st') = snd (execute svc (range s) st')) ->
  emitted (for_each svc sheets body st)
  = concat (imap (fun i s =>
                    emitted (body s (after_reads svc (range <$> take i sheets) st)))
              sheets).
Proof.
  intros Hnever Hfinal.
  destruct (loop_emitted body range sheets st Hfinal) as (k & Hem & Hk).
  rewrite (for_each_never_raises svc sheets body Hnever st) in Hk. subst k.
  now rewrite take_ge in Hem by lia.
Qed.

(** What a sheet of check_sheet_structure.py shows of its read: the
    diagnostic alone when it failed, the heading first when it succeeded. *)
Lemma guarded_block_shape (range sheet : string) (icon : option codepoint)
    (suffix : string) (rest : response -> script svc unit)
    (st : svc_state svc) :
  match fst (execute svc range st) with
  | inl cause =>
      emitted
        (try_except svc
           (result ← get_values svc range;
            print svc (SheetHeading icon sheet suffix);; rest result)
           (report_error svc sheet) st)
      = [Fetch range; Print (ErrorReading sheet (RemoteError cause)); Print Blank]
  | inr _ =>
      nth_error
        (emitted
           (try_except svc
              (result ← get_values svc range;
               print svc (SheetHeading icon sheet suffix);; rest result)
              (report_error svc sheet) st)) 1
      = Some (Print (SheetHeading icon sheet suffix))
  end.
Proof.
  unfold try_except. rewrite bind_run, get_values_run.
  destruct (fst (execute svc range st)) as [cause|result]; simpl.
  - reflexivity.
  - destruct (outcome (rest result (snd (execute svc range st)))) as [e|a];
      reflexivity.
Qed.

Lemma check_headers_sheet_shape (sheet : string) (st : svc_state svc) :
  match fst (execute svc (headers_range sheet) st) with
  | inl _ =>
      emitted (check_headers_sheet svc sheet st) = [Fetch (headers_range sheet)]
  | inr _ =>
      nth_error (emitted (check_headers_sheet svc sheet st)) 1
      = Some (Print (SheetHeading None sheet ""))
  end.
Proof.
  unfold check_headers_sheet. rewrite bind_run, get_values_run.
  destruct (fst (execute svc (headers_range sheet) st)) as [cause|result];
    reflexivity.
Qed.

End Order.

(** C7.  The sheets are processed one after the other in the order of the
    list.  The events of a loop are the blocks of its sheets in list order,
    the block of a sheet being what its iteration does from the state the
    reads of the sheets before it left.  A block is one remote call for the
    sheet's range, answered before anything else happens, followed only by
    lines about that sheet and no other call; when the read succeeded the
    heading of the sheet comes right after the call, when it failed
    check_sheet_structure.py prints the diagnostic of the sheet instead and
    check_headers.py prints nothing more.  In check_sheet_structure.py every
    sheet of the list has its block, so the output lists the sheets in the
    order of the input; in check_headers.py the blocks are those of the
    sheets up to the first iteration that raises, all of them when none
    does. *)
Theorem sheets_processed_in_list_order (svc : Service) (sheets : list string)
    (st : svc_state svc) :
  emitted (structure_loop svc sheets st)
  = concat (imap (fun i s =>
                    emitted (structure_sheet svc s
                               (after_reads svc (structure_range <$> take i sheets) st)))
              sheets)
  /\ emitted (sample_loop svc sheets st)
     = concat (imap (fun i s =>
                       emitted (sample_sheet svc s
                                  (after_reads svc (sample_range <$> take i sheets) st)))
                 sheets)
  /\ (exists k : nat,
        emitted (check_headers_loop svc sheets st)
        = concat (imap (fun i s =>
                          emitted (check_headers_sheet svc s
                                     (after_reads svc (headers_range <$> take i sheets) st)))
                    (take k sheets))
        /\ match outcome (check_headers_loop svc sheets st) with
           | inr _ => k = length sheets
           | inl _ => (1 <= k <= length sheets)%nat
           end)
  /\ (forall s st0,
        sheet_block structure_range s (emitted (structure_sheet svc s st0)) = true
        /\ match fst (execute svc (structure_range s) st0) with
           | inl cause =>
               emitted (structure_sheet svc s st0)
               = [Fetch (structure_range s);
                  Print (ErrorReading s (RemoteError cause)); Print Blank]
           | inr _ =>
               nth_error (emitted (structure_sheet svc s st0)) 1
               = Some (Print (SheetHeading (Some 128203) s ""))
           end)
  /\ (forall s st0,
        sheet_block sample_range s (emitted (sample_sheet svc s st0)) = true
        /\ match fst (execute svc (sample_range s) st0) with
           | inl cause =>
               emitted (sample_sheet svc s st0)
               = [Fetch (sample_range s);
                  Print (ErrorReading s (RemoteError cause)); Print Blank]
           | inr _ =>
               nth_error (emitted (sample_sheet svc s st0)) 1
               = Some (Print (SheetHeading (Some 128202) s " - Data Sample"))
           end)
  /\ (forall s st0,
        sheet_block headers_range s (emitted (check_headers_sheet svc s st0)) = true
        /\ match fst (execute svc (headers_range s) st0) with
           | inl _ =>
               emitted (check_headers_sheet svc s st0) = [Fetch (headers_range s)]
           | inr _ =>
               nth_error (emitted (check_headers_sheet svc s st0)) 1
               = Some (Print (SheetHeading None s ""))
           end)
  /\ fetches (emitted (structure_loop svc sheets st)) = structure_range <$> sheets
  /\ fetches (emitted (sample_loop svc sheets st)) = sample_range <$> sheets.
Proof.
  split; [|split; [|split; [|split; [|split; [|split; [|split]]]]]].
  - apply guarded_loop_emitted.
    + apply structure_sheet_never_raises.
    + apply structure_sheet_final.
  - apply guarded_loop_emitted.
    + apply sample_sheet_never_raises.
    + apply sample_sheet_final.
  - apply loop_emitted, check_headers_sheet_final.
  - intros s st0. split; [apply structure_sheet_block|].
    apply guarded_block_shape.
  - intros s st0. split; [apply sample_sheet_block|].
    apply guarded_block_shape.
  - intros s st0. split; [apply check_headers_sheet_block|].
    apply check_headers_sheet_shape.
  - apply structure_loop_fetches.
  - apply sample_loop_fetches.
Qed.

(** ** A row past the printable letters *)


